(** * Hardware Stress Testing Tool (hst): metrics sampler, command builder
      and run supervisor of [main.cpp], as a shallow embedding.

    Conventions of the embedding.
    - A [QString] is the sequence of its characters, each a Unicode code
      point in [N]; string literals of the source are written [qstr "..."].
    - C++ [int] widget values are integers in [Z] (the code only takes
      [std::max] of them, which cannot overflow); [quint64], [qulonglong]
      and [unsigned long long] values are integers in [Z] with the
      wrap-around modulo 2^64 written out.
    - A C++ [double] is modelled by the exact rational in [Q]: what is
      proved about the percentages are guards and bounds, which do not
      depend on rounding.
    - Whatever the program asks of the operating system or of a Qt routine
      that is not part of [main.cpp] (the shell lookup of [which], the
      clock, [QProcess::splitCommand], the text codec, whether a file opens
      or a process spawns) is an explicit input of the function that asks. *)

From Stdlib Require Import ZArith NArith QArith Lia Bool.
From Stdlib Require Import String Ascii DecimalString.
From stdpp Require Import gmap list.

Local Open Scope Z_scope.

(* ===================================================================== *)
(** ** Qt strings *)
(* ===================================================================== *)

Module QStr.

Definition QChar := N.
Abbreviation QString := (list N).

(** A literal of the source. *)
Definition qstr (s : string) : QString :=
  List.map N_of_ascii (list_ascii_of_string s).

(** [QChar::isSpace]: the control characters 9..13 and 0x85, and the
    separator categories Zs, Zl, Zp. *)
Definition isSpace (c : QChar) : bool :=
  ((9 <=? c) && (c <=? 13) || (c =? 32) || (c =? 133) || (c =? 160)
   || (c =? 5760) || ((8192 <=? c) && (c <=? 8202)) || (c =? 8232)
   || (c =? 8233) || (c =? 8239) || (c =? 8287) || (c =? 12288))%N.

(** [isEmpty] of a [QString] and of a [QStringList]. *)
Definition isEmpty {A} (s : list A) : bool :=
  match s with [] => true | _ => false end.

Fixpoint dropSpaces (s : QString) : QString :=
  match s with
  | c :: r => if isSpace c then dropSpaces r else s
  | [] => []
  end.

(** [QString::trimmed]: white space removed from both ends. *)
Definition trimmed (s : QString) : QString :=
  rev (dropSpaces (rev (dropSpaces s))).

(** [QString::number(int)], base 10. *)
Definition number (z : Z) : QString :=
  (if z <? 0 then qstr "-" else []) ++
  qstr (NilZero.string_of_uint (N.to_uint (Z.abs_N z))).

(** [QStringList::join(sep)]. *)
Fixpoint join (sep : QString) (l : list QString) : QString :=
  match l with
  | [] => []
  | [x] => x
  | x :: r => x ++ sep ++ join sep r
  end.

(** [QString::remove(QChar)]: every occurrence is removed. *)
Definition remove (c : QChar) (s : QString) : QString :=
  List.filter (fun d => negb (d =? c)%N) s.

Definition eqb (a b : QString) : bool := bool_decide (a = b).

Definition nl : QString := [10%N].
Definition sp : QString := [32%N].

#[global] Arguments qstr : simpl never.
#[global] Arguments number : simpl never.
#[global] Arguments trimmed : simpl never.

End QStr.
Import QStr.

(* ===================================================================== *)
(** ** Command builder *)
(* ===================================================================== *)

(** What the command builder asks of the host. *)
Record Host := {
  (** standard output of [bash -lc <script>], as far as it was produced
      within the 1500 ms the caller waits *)
  bashLc : QString -> QString;
  (** [QSysInfo::productType()] *)
  productType : QString;
  (** [QDir::currentPath()] *)
  currentPath : QString;
  (** [QProcess::splitCommand] *)
  splitCommand : QString -> list QString
}.

(** [which(exe, outPath)]: the flag and the path stored through [outPath]. *)
Definition which (h : Host) (exe : QString) : bool * QString :=
  let path := trimmed (bashLc h (qstr "command -v " ++ exe)) in
  (negb (isEmpty path), path).

(** The widgets the builder reads: the five radio buttons, the spin boxes
    and the line edits. *)
Record Widgets := {
  rbCpu : bool; rbRam : bool; rbGpu : bool; rbDisk : bool; rbNet : bool;
  cpuWorkers : Z; cpuDuration : Z;
  ramWorkers : Z; ramDuration : Z; ramBytes : QString;
  diskSize : QString; diskRuntime : Z; diskFilename : QString;
  netServer : QString; netExtra : QString
}.

(** A modal message box shown to the user. *)
Inductive Dialog :=
| Warning (title text : QString)
| Critical (title text : QString).

Definition missingDependency (exe : QString) : Dialog :=
  Critical (qstr "Missing Dependency")
    (qstr "'" ++ exe ++ qstr "' not found." ++ nl ++ qstr "Install with:" ++ nl
       ++ qstr "  sudo apt install " ++ exe).

Definition inputError : Dialog :=
  Warning (qstr "Input Error") (qstr "Please enter the iperf3 server IP.").

(** The lambda [need] of [buildCommand]. *)
Definition need (h : Host) (exe : QString) : bool * list Dialog :=
  if fst (which h exe) then (true, []) else (false, [missingDependency exe]).

Definition orDefault (s d : QString) : QString :=
  if isEmpty s then d else s.

Definition CommandSpec : Type := list QString * option Z.

Definition noCommand : CommandSpec := ([], None).

(** [MainWindow::buildCommand]: the pair it returns and the dialogs it
    shows on the way. *)
Definition buildCommand (h : Host) (w : Widgets) : CommandSpec * list Dialog :=
  if rbCpu w then
    let (ok, dlg) := need h (qstr "stress-ng") in
    if negb ok then (noCommand, dlg) else
    let workers := Z.max 1 (cpuWorkers w) in
    let dur := Z.max 5 (cpuDuration w) in
    (([qstr "stress-ng"; qstr "--cpu"; number workers;
       qstr "--timeout"; number dur ++ qstr "s"], Some dur), dlg)
  else if rbRam w then
    let (ok, dlg) := need h (qstr "stress-ng") in
    if negb ok then (noCommand, dlg) else
    let vm := Z.max 1 (ramWorkers w) in
    let dur := Z.max 5 (ramDuration w) in
    let bytes := orDefault (trimmed (ramBytes w)) (qstr "512M") in
    (([qstr "stress-ng"; qstr "--vm"; number vm; qstr "--vm-bytes"; bytes;
       qstr "--timeout"; number dur ++ qstr "s"], Some dur), dlg)
  else if rbGpu w then
    let (ok, dlg) := need h (qstr "glmark2") in
    if negb ok then (noCommand, dlg) else
    (([qstr "glmark2"], None), dlg)
  else if rbDisk w then
    let (ok, dlg) := need h (qstr "fio") in
    if negb ok then (noCommand, dlg) else
    let size := orDefault (trimmed (diskSize w)) (qstr "1G") in
    let runtime := Z.max 5 (diskRuntime w) in
    let filename := orDefault (trimmed (diskFilename w))
                      (currentPath h ++ qstr "/fio_testfile.bin") in
    let ioengine := if eqb (productType h) (qstr "linux")
                    then qstr "libaio" else qstr "psync" in
    (([qstr "fio"; qstr "--name=randrw"; qstr "--rw=randrw";
       qstr "--size=" ++ size; qstr "--runtime=" ++ number runtime;
       qstr "--time_based=1"; qstr "--filename=" ++ filename;
       qstr "--ioengine=" ++ ioengine; qstr "--direct=1"], Some runtime), dlg)
  else
    let (ok, dlg) := need h (qstr "iperf3") in
    if negb ok then (noCommand, dlg) else
    let srv := trimmed (netServer w) in
    if isEmpty srv then (noCommand, dlg ++ [inputError]) else
    let cmd := [qstr "iperf3"; qstr "-c"; srv] in
    let extra := splitCommand h (trimmed (netExtra w)) in
    ((cmd ++ extra, None), dlg).

(** [MainWindow::testName]. *)
Definition testName (w : Widgets) : QString :=
  if rbCpu w then qstr "cpu"
  else if rbRam w then qstr "ram"
  else if rbGpu w then qstr "gpu"
  else if rbDisk w then qstr "disk"
  else qstr "net".

(* ===================================================================== *)
(** ** Metrics sampler *)
(* ===================================================================== *)

(** Arithmetic of [quint64], [qulonglong] and [unsigned long long]. *)
Definition wrap64 (z : Z) : Z := z mod 2 ^ 64.

(** The values of those types. *)
Definition inU64 (v : Z) : Prop := 0 <= v < 2 ^ 64.

(** [struct CpuSnapshot]. *)
Record CpuSnapshot := {
  user : Z; nice : Z; sys : Z; idle : Z; iowait : Z;
  irq : Z; softirq : Z; steal : Z; guest : Z; guest_nice : Z
}.

(** [QTextStream >> QString]: white space is skipped, then the word up to
    the next white space is taken; the rest of the stream is returned. *)
Fixpoint takeWord (s : QString) : QString * QString :=
  match s with
  | c :: r => if isSpace c then ([], s)
              else let (w, rest) := takeWord r in (c :: w, rest)
  | [] => ([], [])
  end.

Definition readWord (s : QString) : QString * QString :=
  takeWord (dropSpaces s).

Section ReadCpu.

(** [QTextStream >> quint64]: the number stored in the variable, 0 when no
    number can be read, and the rest of the stream. *)
Variable getNumber : QString -> Z * QString.

(** [readCpu], from the first line of [/proc/stat]; [None] as argument
    when the file cannot be opened. *)
Definition readCpu (stat : option QString) : option CpuSnapshot :=
  match stat with
  | None => None
  | Some line =>
    let (cpu, t0) := readWord line in
    if negb (eqb cpu (qstr "cpu")) then None else
    let (v0, t1) := getNumber t0 in
    let (v1, t2) := getNumber t1 in
    let (v2, t3) := getNumber t2 in
    let (v3, t4) := getNumber t3 in
    let (v4, t5) := getNumber t4 in
    let (v5, t6) := getNumber t5 in
    let (v6, t7) := getNumber t6 in
    let (v7, t8) := getNumber t7 in
    let (v8, t9) := getNumber t8 in
    let (v9, _) := getNumber t9 in
    Some {| user := wrap64 v0; nice := wrap64 v1; sys := wrap64 v2;
            idle := wrap64 v3; iowait := wrap64 v4; irq := wrap64 v5;
            softirq := wrap64 v6; steal := wrap64 v7; guest := wrap64 v8;
            guest_nice := wrap64 v9 |}
  end.

End ReadCpu.

(** The function-local [static auto prev] of [cpuPercent]: [None] until the
    first call has initialised it, then the stored optional. *)
Definition SamplerState : Type := option (option CpuSnapshot).

(** [cpuPercent]. [read] is what [readCpu()] returns during this call. The
    first call evaluates [readCpu()] twice, once in the initialiser of
    [prev] and once for [now]; a call is taken to be atomic with respect to
    the kernel counters, so both evaluations return [read]. *)
Definition cpuPercent (read : option CpuSnapshot) (st : SamplerState)
  : Q * SamplerState :=
  let prev := match st with Some p => p | None => read end in
  let now := read in
  match prev, now with
  | Some p, Some n =>
    let deltaIdle := wrap64 (wrap64 (idle n + iowait n) - wrap64 (idle p + iowait p)) in
    let prevNon := wrap64 (user p + nice p + sys p + irq p + softirq p + steal p) in
    let nowNon := wrap64 (user n + nice n + sys n + irq n + softirq n + steal n) in
    let deltaNon := wrap64 (nowNon - prevNon) in
    let total := wrap64 (deltaIdle + deltaNon) in
    (if total <=? 0 then 0%Q
     else (inject_Z deltaNon / inject_Z total * 100)%Q,
     Some now)
  | _, _ => (0%Q, Some prev)
  end.

(** The separator of [QString::split(QRegularExpression("\\s+"))]: [\s]
    without the Unicode-properties option is the ASCII white space. *)
Definition isRegexSpace (c : QChar) : bool :=
  ((9 <=? c) && (c <=? 13) || (c =? 32))%N.

Fixpoint splitAcc (cur : QString) (s : QString) : list QString :=
  match s with
  | [] => if isEmpty cur then [] else [rev cur]
  | c :: r =>
    if isRegexSpace c
    then (if isEmpty cur then splitAcc [] r else rev cur :: splitAcc [] r)
    else splitAcc (c :: cur) r
  end.

(** [split(..., Qt::SkipEmptyParts)]. *)
Definition splitSpaces (s : QString) : list QString := splitAcc [] s.

Definition digitValue (c : QChar) : option Z :=
  if ((48 <=? c) && (c <=? 57))%N then Some (Z.of_N c - 48) else None.

Fixpoint digitsValue (acc : Z) (s : QString) : option Z :=
  match s with
  | [] => Some acc
  | c :: r => match digitValue c with
              | Some d => digitsValue (10 * acc + d) r
              | None => None
              end
  end.

(** [QString::toULongLong(&ok)], base 10, on a token without white space:
    an optional plus sign and at least one decimal digit, the value within
    64 bits; [None] stands for [ok == false]. *)
Definition toULongLong (s : QString) : option Z :=
  let body := match s with 43%N :: r => r | _ => s end in
  match body with
  | [] => None
  | _ => match digitsValue 0 body with
         | Some v => if v <? 2 ^ 64 then Some v else None
         | None => None
         end
  end.

(** One iteration of the loop of [memPercent] over the lines of the file. *)
Definition memLine (map : gmap QString Z) (line : QString) : gmap QString Z :=
  match splitSpaces line with
  | key :: val :: _ =>
    match toULongLong val with
    | Some kB => <[remove 58%N key := kB]> map
    | None => map
    end
  | _ => map
  end.

Definition memTable (lines : list QString) : gmap QString Z :=
  fold_left memLine lines ∅.

(** [QHash::value(key, 0)]. *)
Definition value (map : gmap QString Z) (key : QString) : Z :=
  default 0 (map !! key).

(** What a percent function returns, and the two values it stores through
    its out-pointers ([None] when it returns before storing them). *)
Definition Reading : Type := Q * option (Q * Q).

(** [memPercent], from the lines of [/proc/meminfo]; [None] as argument
    when the file cannot be opened. *)
Definition memPercent (meminfo : option (list QString)) : Reading :=
  match meminfo with
  | None => (0%Q, None)
  | Some lines =>
    let map := memTable lines in
    let MemTotal := value map (qstr "MemTotal") in
    let avail_kB := value map (qstr "MemAvailable") in
    let used_kB := inject_Z (wrap64 (MemTotal - avail_kB)) in
    let pct := if MemTotal =? 0 then 0%Q
               else (used_kB / inject_Z MemTotal * 100)%Q in
    (pct, Some ((used_kB / 1024 / 1024)%Q, (inject_Z MemTotal / 1024 / 1024)%Q))
  end.

(** The fields of [struct statvfs] that are read. *)
Record StatVfs := { f_blocks : Z; f_frsize : Z; f_bavail : Z }.

(** [rootDiskPercent], from the result of [statvfs("/")]; [None] as
    argument when the call fails. *)
Definition rootDiskPercent (fs : option StatVfs) : Reading :=
  match fs with
  | None => (0%Q, None)
  | Some s =>
    let total := wrap64 (f_blocks s * f_frsize s) in
    let avail := wrap64 (f_bavail s * f_frsize s) in
    let used := wrap64 (total - avail) in
    if total =? 0 then (0%Q, None) else
    ((inject_Z used / inject_Z total * 100)%Q,
     Some ((inject_Z used / (1024 * 1024 * 1024))%Q,
           (inject_Z total / (1024 * 1024 * 1024))%Q))
  end.

(* ===================================================================== *)
(** ** Run supervisor and run logger *)
(* ===================================================================== *)

Definition APP_NAME : QString := qstr "Hardware Stress Testing Tool".

Definition ellipsis : QString := [8230%N].

(** [QDateTime::currentDateTime()], local time. *)
Record DateTime := {
  year : Z; month : Z; day : Z; hour : Z; minute : Z; second : Z
}.

(** A non-negative number in a field of the given width, filled with
    zeros, as the date formats and [QString::arg(n, 2, 10, '0')] print it. *)
Definition padded (width : nat) (n : Z) : QString :=
  let d := number n in
  repeat 48%N (width - length d) ++ d.

(** [toString("yyyy-MM-dd_hh-mm-ss")]. *)
Definition fileStamp (t : DateTime) : QString :=
  padded 4 (year t) ++ qstr "-" ++ padded 2 (month t) ++ qstr "-"
  ++ padded 2 (day t) ++ qstr "_" ++ padded 2 (hour t) ++ qstr "-"
  ++ padded 2 (minute t) ++ qstr "-" ++ padded 2 (second t).

(** [toString(Qt::ISODate)] of a local time: ISO 8601 extended format
    without a zone designator. *)
Definition isoDate (t : DateTime) : QString :=
  padded 4 (year t) ++ qstr "-" ++ padded 2 (month t) ++ qstr "-"
  ++ padded 2 (day t) ++ qstr "T" ++ padded 2 (hour t) ++ qstr ":"
  ++ padded 2 (minute t) ++ qstr ":" ++ padded 2 (second t).

(** [QProcess::ProcessState]. *)
Inductive ProcessState := NotRunning | Starting | Running.

#[global] Instance ProcessState_eq_dec : EqDecision ProcessState.
Proof. solve_decision. Defined.

(** Signals sent to the child: [terminate()] and [kill()]. *)
Inductive Signal := SIGTERM | SIGKILL.

(** [QFile logFile]: its name, whether it is open, and what was streamed
    into the file since it was opened (each operand of [<<], in order). *)
Record LogFile := {
  fileName : QString;
  isOpen : bool;
  written : list QString
}.

(** The widgets the process handling writes to. *)
Record Ui := {
  btnStart : bool;                (* btnStart->isEnabled() *)
  btnStop : bool;                 (* btnStop->isEnabled() *)
  progressMin : Z; progressMax : Z; progressValue : Z;
  eta : QString;
  status : QString;               (* statusBar() message *)
  output : QString;               (* text of the output view *)
  dialogs : list Dialog           (* message boxes shown, oldest first *)
}.

(** The state of [MainWindow] that the process handling touches. *)
Record MainWindow := {
  procState : ProcessState;       (* proc.state() *)
  sent : list Signal;             (* signals sent to the child, oldest first *)
  logFile : LogFile;
  expectedSeconds : option Z;
  runStart : Z;                   (* runTimer: the clock, in ms, at restart() *)
  timers : nat;                   (* pending single-shot calls of tickProgress *)
  ui : Ui
}.

(** The window as the constructor leaves it. *)
Definition initial : MainWindow :=
  {| procState := NotRunning; sent := [];
     logFile := {| fileName := []; isOpen := false; written := [] |};
     expectedSeconds := None; runStart := 0; timers := 0;
     ui := {| btnStart := true; btnStop := false;
              progressMin := 0; progressMax := 100; progressValue := 0;
              eta := qstr "ETA: --:--"; status := qstr "Ready.";
              output := []; dialogs := [] |} |}.

Definition withUi (f : Ui -> Ui) (m : MainWindow) : MainWindow :=
  {| procState := procState m; sent := sent m; logFile := logFile m;
     expectedSeconds := expectedSeconds m; runStart := runStart m;
     timers := timers m; ui := f (ui m) |}.

Definition withLog (f : LogFile -> LogFile) (m : MainWindow) : MainWindow :=
  {| procState := procState m; sent := sent m; logFile := f (logFile m);
     expectedSeconds := expectedSeconds m; runStart := runStart m;
     timers := timers m; ui := ui m |}.

(** [QMessageBox::warning] and [QMessageBox::critical]. *)
Definition showDialogs (ds : list Dialog) : MainWindow -> MainWindow :=
  withUi (fun u =>
    {| btnStart := btnStart u; btnStop := btnStop u;
       progressMin := progressMin u; progressMax := progressMax u;
       progressValue := progressValue u; eta := eta u; status := status u;
       output := output u; dialogs := dialogs u ++ ds |}).

(** The output view: [f] applied to its text. *)
Definition onOutput (f : QString -> QString) : MainWindow -> MainWindow :=
  withUi (fun u =>
    {| btnStart := btnStart u; btnStop := btnStop u;
       progressMin := progressMin u; progressMax := progressMax u;
       progressValue := progressValue u; eta := eta u; status := status u;
       output := f (output u); dialogs := dialogs u |}).

(** [statusBar()->showMessage]. *)
Definition showMessage (s : QString) : MainWindow -> MainWindow :=
  withUi (fun u =>
    {| btnStart := btnStart u; btnStop := btnStop u;
       progressMin := progressMin u; progressMax := progressMax u;
       progressValue := progressValue u; eta := eta u; status := s;
       output := output u; dialogs := dialogs u |}).

(** [QTextStream(&logFile) << s]. *)
Definition stream (s : list QString) : MainWindow -> MainWindow :=
  withLog (fun l =>
    {| fileName := fileName l; isOpen := isOpen l;
       written := written l ++ s |}).

(** [QTextEdit::append]: a new paragraph at the end. *)
Definition append (text doc : QString) : QString :=
  if isEmpty doc then text else doc ++ nl ++ text.

(** The local 8-bit codec: [QString::fromLocal8Bit] on what the child
    wrote, and the encoding [QTextStream] applies on the way to the file. *)
Record Codec := {
  fromLocal8Bit : list Byte.byte -> QString;
  toLocal8Bit : QString -> list Byte.byte
}.


(** The codec of a UTF-8 locale: well-formed sequences decode to their code
    point, a byte that starts no well-formed sequence decodes to U+FFFD. *)
Module Utf8.

Definition replacement : N := 65533.

Definition cont (b : N) : bool := ((128 <=? b) && (b <=? 191))%N.

Definition scalar (cp : N) : bool :=
  ((cp <? 55296) || ((57343 <? cp) && (cp <=? 1114111)))%N.

Definition two (b0 b1 : N) : option N :=
  if ((194 <=? b0) && (b0 <=? 223))%N && cont b1
  then Some ((b0 - 192) * 64 + b1 mod 64)%N
  else None.

Definition three (b0 b1 b2 : N) : option N :=
  if ((224 <=? b0) && (b0 <=? 239))%N && cont b1 && cont b2
  then let cp := ((b0 - 224) * 4096 + (b1 mod 64) * 64 + b2 mod 64)%N in
       if (2048 <=? cp)%N && scalar cp then Some cp else None
  else None.

Definition four (b0 b1 b2 b3 : N) : option N :=
  if ((240 <=? b0) && (b0 <=? 244))%N && cont b1 && cont b2 && cont b3
  then let cp := ((b0 - 240) * 262144 + (b1 mod 64) * 4096
                  + (b2 mod 64) * 64 + b3 mod 64)%N in
       if (65536 <=? cp)%N && scalar cp then Some cp else None
  else None.

Fixpoint decodeN (bs : list N) : list N :=
  match bs with
  | [] => []
  | b0 :: r0 =>
    if (b0 <? 128)%N then b0 :: decodeN r0 else
    match r0 with
    | b1 :: r1 =>
      match two b0 b1 with
      | Some cp => cp :: decodeN r1
      | None =>
        match r1 with
        | b2 :: r2 =>
          match three b0 b1 b2 with
          | Some cp => cp :: decodeN r2
          | None =>
            match r2 with
            | b3 :: r3 =>
              match four b0 b1 b2 b3 with
              | Some cp => cp :: decodeN r3
              | None => replacement :: decodeN r0
              end
            | [] => replacement :: decodeN r0
            end
          end
        | [] => replacement :: decodeN r0
        end
      end
    | [] => [replacement]
    end
  end.

Definition encodeChar (cp : N) : list N :=
  (if cp <? 128 then [cp]
   else if cp <? 2048 then [192 + cp / 64; 128 + cp mod 64]
   else if negb (scalar cp) then [239; 191; 189]
   else if cp <? 65536
        then [224 + cp / 4096; 128 + (cp / 64) mod 64; 128 + cp mod 64]
        else [240 + cp / 262144; 128 + (cp / 4096) mod 64;
              128 + (cp / 64) mod 64; 128 + cp mod 64])%N.

Definition toByte (n : N) : Byte.byte :=
  match Byte.of_N n with Some b => b | None => Byte.x00 end.

Definition decode (bs : list Byte.byte) : QString :=
  decodeN (List.map Byte.to_N bs).

Definition encode (s : QString) : list Byte.byte :=
  List.map toByte (concat (List.map encodeChar s)).

Definition codec : Codec :=
  {| fromLocal8Bit := decode; toLocal8Bit := encode |}.

End Utf8.

(** What [startClicked] asks of the host. *)
Record StartEnv := {
  host : Host;
  homeLocation : QString;            (* QStandardPaths::HomeLocation *)
  nameTime : DateTime;               (* the clock read by timestamp() *)
  headerTime : DateTime;             (* the clock read for the header *)
  logOpens : QString -> bool;        (* does logFile.open succeed *)
  spawns : list QString -> bool;     (* does proc.start start the program *)
  clock : Z                          (* the monotonic clock, in ms *)
}.

(** [logDirPath]. *)
Definition logDirPath (e : StartEnv) : QString :=
  homeLocation e ++ qstr "/HardwareStressTest/logs".

(** The two [ts << ...] statements of [startClicked]. *)
Definition logHeader (e : StartEnv) (cmd : list QString) : list QString :=
  [APP_NAME; qstr " Log - "; isoDate (headerTime e); nl;
   qstr "Command: "; join sp cmd; nl ++ nl].

(** What [procFinished] streams into the log. *)
Definition logFooter (rc : Z) : list QString :=
  [nl ++ qstr "[exit] "; number rc; nl].

Definition busy : Dialog :=
  Warning (qstr "Busy") (qstr "A test is already running.").

Definition loggingError (fn : QString) : Dialog :=
  Critical (qstr "Logging Error") (qstr "Cannot write log file: " ++ fn).

(** The name [startClicked] gives the log file. *)
Definition logFileName (e : StartEnv) (w : Widgets) : QString :=
  logDirPath e ++ qstr "/" ++ testName w ++ qstr "_"
  ++ fileStamp (nameTime e) ++ qstr ".log".

(** [MainWindow::startClicked]. *)
Definition startClicked (e : StartEnv) (w : Widgets) (m : MainWindow)
  : MainWindow :=
  if negb (bool_decide (procState m = NotRunning)) then
    showDialogs [busy] m
  else
    let '((cmd, exp), dlg) := buildCommand (host e) w in
    let m := showDialogs dlg m in
    if isEmpty cmd then m else
    let fn := logFileName e w in
    if negb (logOpens e fn) then
      (* setFileName closes a file that is still open *)
      showDialogs [loggingError fn]
        (withLog (fun l => {| fileName := fn; isOpen := false;
                              written := written l |}) m)
    else
      {| procState := if spawns e cmd then Starting else NotRunning;
         sent := [];
         logFile := {| fileName := fn; isOpen := true;
                       written := logHeader e cmd |};
         expectedSeconds := exp;
         runStart := clock e;
         timers := S (timers m);
         ui := {| btnStart := false;
                  btnStop := true;
                  progressMin := match exp with
                                 | Some _ => progressMin (ui m) | None => 0
                                 end;
                  progressMax := match exp with Some d => d | None => 0 end;
                  progressValue := match exp with
                                   | Some _ => 0 | None => progressValue (ui m)
                                   end;
                  eta := match exp with
                         | Some _ => qstr "ETA: calculating" ++ ellipsis
                         | None => qstr "ETA: --:--"
                         end;
                  status := qstr "Running" ++ ellipsis;
                  output := append (qstr "Starting: " ++ join sp cmd)
                              (output (ui m));
                  dialogs := dialogs (ui m) |} |}.

(** [MainWindow::procFinished]; [QProcess] is back in [NotRunning] when it
    emits [finished]. *)
Definition procFinished (rc : Z) (m : MainWindow) : MainWindow :=
  {| procState := NotRunning;
     sent := sent m;
     logFile := if isOpen (logFile m)
                then {| fileName := fileName (logFile m); isOpen := false;
                        written := written (logFile m) ++ logFooter rc |}
                else logFile m;
     expectedSeconds := expectedSeconds m;
     runStart := runStart m;
     timers := timers m;
     ui := {| btnStart := true;
              btnStop := false;
              progressMin := 0; progressMax := 100; progressValue := 0;
              eta := qstr "ETA: --:--";
              status := qstr "Ready.";
              output := append (nl ++ qstr "Process finished with return code: "
                                   ++ number rc) (output (ui m));
              dialogs := dialogs (ui m) |} |}.

(** [readStdout] and [readStderr]: the same statements, on the bytes that
    [readAllStandardOutput] or [readAllStandardError] returned. *)
Definition readOutput (c : Codec) (bytes : list Byte.byte) (m : MainWindow)
  : MainWindow :=
  let s := fromLocal8Bit c bytes in
  let m := onOutput (fun doc => doc ++ s) m in
  if isOpen (logFile m) then stream [s] m else m.

(** What happens while [stopClicked] sits in [proc.waitForFinished(3000)]:
    output that arrives is read, and either the child exits within the
    window, so that [finished] is emitted from inside the wait and the wait
    returns true, or the window passes and the wait returns false. *)
Inductive WaitResult :=
| ExitedInTime (out : list (list Byte.byte)) (rc : Z)
| TimedOut (out : list (list Byte.byte)).

Definition readAll (c : Codec) (out : list (list Byte.byte)) (m : MainWindow)
  : MainWindow :=
  fold_left (fun m b => readOutput c b m) out m.

Definition send (sig : Signal) (m : MainWindow) : MainWindow :=
  {| procState := procState m; sent := sent m ++ [sig]; logFile := logFile m;
     expectedSeconds := expectedSeconds m; runStart := runStart m;
     timers := timers m; ui := ui m |}.

(** The wait window of [stopClicked], in ms. *)
Definition stopWindow : Z := 3000.

(** [MainWindow::stopClicked]; [wait] tells what [waitForFinished] of the
    given window meets. *)
Definition stopClicked (c : Codec) (wait : Z -> WaitResult) (m : MainWindow)
  : MainWindow :=
  if negb (bool_decide (procState m = NotRunning)) then
    let m := onOutput (append (nl ++ qstr "Stopping" ++ ellipsis
                                 ++ qstr " attempting graceful termination.")) m in
    let m := send SIGTERM m in
    let m := match wait stopWindow with
             | ExitedInTime out rc => procFinished rc (readAll c out m)
             | TimedOut out => send SIGKILL (readAll c out m)
             end in
    showMessage (qstr "Stopping" ++ ellipsis) m
  else m.

(** [MainWindow::tickProgress], at the given reading of the clock. *)
Definition tickProgress (now : Z) (m : MainWindow) : MainWindow :=
  if negb (bool_decide (procState m = NotRunning)) then
    let u := ui m in
    let u :=
      match expectedSeconds m with
      | Some exp =>
        let elapsed := Z.quot (now - runStart m) 1000 in
        let remain := Z.max 0 (exp - elapsed) in
        let mm := Z.quot remain 60 in
        let ss := Z.rem remain 60 in
        {| btnStart := btnStart u; btnStop := btnStop u;
           progressMin := progressMin u; progressMax := exp;
           progressValue := Z.min exp (Z.max 0 elapsed);
           eta := qstr "ETA: " ++ padded 2 mm ++ qstr ":" ++ padded 2 ss;
           status := status u; output := output u; dialogs := dialogs u |}
      | None => u
      end in
    {| procState := procState m; sent := sent m; logFile := logFile m;
       expectedSeconds := expectedSeconds m; runStart := runStart m;
       timers := S (timers m); ui := u |}
  else m.

(** What the event loop delivers to the window. *)
Inductive Event :=
| ClickStart (e : StartEnv) (w : Widgets)   (* Start pressed, the widgets as they are *)
| ClickStop (wait : Z -> WaitResult)        (* Stop pressed *)
| ProcStarted                               (* the child is up *)
| ReadyRead (bytes : list Byte.byte)        (* readyReadStandardOutput / Error *)
| ProcFinished (rc : Z)                     (* finished(rc, status) *)
| TimerFired (now : Z).                     (* a single-shot timer fires *)

Definition setProcState (s : ProcessState) (m : MainWindow) : MainWindow :=
  {| procState := s; sent := sent m; logFile := logFile m;
     expectedSeconds := expectedSeconds m; runStart := runStart m;
     timers := timers m; ui := ui m |}.

Definition setTimers (n : nat) (m : MainWindow) : MainWindow :=
  {| procState := procState m; sent := sent m; logFile := logFile m;
     expectedSeconds := expectedSeconds m; runStart := runStart m;
     timers := n; ui := ui m |}.

(** The slot connected to each event ([connectSignals]). A disabled button
    emits no [clicked]; [QProcess] emits [finished] only for a child that
    was started. *)
Definition step (c : Codec) (m : MainWindow) (ev : Event) : MainWindow :=
  match ev with
  | ClickStart e w => if btnStart (ui m) then startClicked e w m else m
  | ClickStop wait => if btnStop (ui m) then stopClicked c wait m else m
  | ProcStarted =>
    if bool_decide (procState m = Starting) then setProcState Running m else m
  | ReadyRead bytes => readOutput c bytes m
  | ProcFinished rc =>
    if bool_decide (procState m = NotRunning) then m else procFinished rc m
  | TimerFired now =>
    match timers m with
    | S n => tickProgress now (setTimers n m)
    | O => m
    end
  end.

Definition run (c : Codec) (m : MainWindow) (evs : list Event) : MainWindow :=
  fold_left (step c) evs m.

(** The supervisor is idle: no child, no open log, Start can be pressed. *)
Definition Idle (m : MainWindow) : Prop :=
  procState m = NotRunning /\ isOpen (logFile m) = false
  /\ btnStart (ui m) = true.

(* ===================================================================== *)
(** ** The command shapes and the duration table, as the specification
       words them *)
(* ===================================================================== *)

Inductive BenchmarkKind := CPU | Memory | GPU | Disk | Network.

#[global] Instance BenchmarkKind_eq_dec : EqDecision BenchmarkKind.
Proof. solve_decision. Defined.

Module Spec.

(** The radio button of a kind. *)
Definition checked (w : Widgets) (k : BenchmarkKind) : bool :=
  match k with
  | CPU => rbCpu w | Memory => rbRam w | GPU => rbGpu w
  | Disk => rbDisk w | Network => rbNet w
  end.

(** The buttons form an exclusive group: [k] is the one that is checked. *)
Definition selected (k : BenchmarkKind) (w : Widgets) : Prop :=
  forall k', checked w k' = bool_decide (k' = k).

(** The executable a kind requires. *)
Definition executable (k : BenchmarkKind) : QString :=
  match k with
  | CPU | Memory => qstr "stress-ng"
  | GPU => qstr "glmark2"
  | Disk => qstr "fio"
  | Network => qstr "iperf3"
  end.

Definition toolPresent (h : Host) (k : BenchmarkKind) : Prop :=
  fst (which h (executable k)) = true.

Definition blank (s : QString) : bool := isEmpty (trimmed s).

(** The parameters are valid: the server address of a network run is not
    blank; the other kinds accept every value of their widgets. *)
Definition validParameters (w : Widgets) (k : BenchmarkKind) : Prop :=
  match k with
  | Network => blank (netServer w) = false
  | _ => True
  end.

Definition clampedDuration (d : Z) : Z := if d <? 5 then 5 else d.
Definition clampedWorkers (n : Z) : Z := if n <? 1 then 1 else n.

Definition orElse (s d : QString) : QString :=
  if blank s then d else trimmed s.

(** The command shapes of section 6. *)
Definition commandShape (h : Host) (w : Widgets) (k : BenchmarkKind)
  : list QString :=
  match k with
  | CPU =>
    [qstr "stress-ng"; qstr "--cpu"; number (clampedWorkers (cpuWorkers w));
     qstr "--timeout"; number (clampedDuration (cpuDuration w)) ++ qstr "s"]
  | Memory =>
    [qstr "stress-ng"; qstr "--vm"; number (clampedWorkers (ramWorkers w));
     qstr "--vm-bytes"; orElse (ramBytes w) (qstr "512M");
     qstr "--timeout"; number (clampedDuration (ramDuration w)) ++ qstr "s"]
  | GPU => [qstr "glmark2"]
  | Disk =>
    [qstr "fio"; qstr "--name=randrw"; qstr "--rw=randrw";
     qstr "--size=" ++ orElse (diskSize w) (qstr "1G");
     qstr "--runtime=" ++ number (clampedDuration (diskRuntime w));
     qstr "--time_based=1";
     qstr "--filename="
       ++ orElse (diskFilename w) (currentPath h ++ qstr "/fio_testfile.bin");
     qstr "--ioengine="
       ++ (if eqb (productType h) (qstr "linux")
           then qstr "libaio" else qstr "psync");
     qstr "--direct=1"]
  | Network =>
    [qstr "iperf3"; qstr "-c"; trimmed (netServer w)]
    ++ splitCommand h (trimmed (netExtra w))
  end.

(** The expected duration of section 4.2. *)
Definition expectedDuration (w : Widgets) (k : BenchmarkKind) : option Z :=
  match k with
  | CPU => Some (clampedDuration (cpuDuration w))
  | Memory => Some (clampedDuration (ramDuration w))
  | Disk => Some (clampedDuration (diskRuntime w))
  | GPU | Network => None
  end.

End Spec.


(* ===================================================================== *)
(** ** Runs of the supervisor *)
(* ===================================================================== *)

(** The output the window reads while it handles an event, in the order of
    arrival. *)
Definition arrivals (ev : Event) : list (list Byte.byte) :=
  match ev with
  | ReadyRead bytes => [bytes]
  | ClickStop wait =>
    match wait stopWindow with
    | ExitedInTime out _ => out
    | TimedOut out => out
    end
  | _ => []
  end.

(** The events during which the child stays alive. *)
Definition keepsRunning (ev : Event) : Prop :=
  match ev with
  | ProcFinished _ => False
  | ClickStop wait =>
    match wait stopWindow with ExitedInTime _ _ => False | TimedOut _ => True end
  | _ => True
  end.

(** The events with which the child exits with code [rc]: the exit event of
    the event loop, or a stop request during whose wait the child exits. *)
Definition exitsWith (rc : Z) (ev : Event) : Prop :=
  match ev with
  | ProcFinished rc' => rc' = rc
  | ClickStop wait =>
    match wait stopWindow with
    | ExitedInTime _ rc' => rc' = rc
    | TimedOut _ => False
    end
  | _ => False
  end.

(** A run is under way: the child exists, the log is open and holds the
    header [hdr] followed by the decoded output [chunks], Start is disabled
    and Stop enabled. *)
Definition RunInv (c : Codec) (hdr : list QString)
  (chunks : list (list Byte.byte)) (m : MainWindow) : Prop :=
  procState m <> NotRunning
  /\ isOpen (logFile m) = true
  /\ written (logFile m) = hdr ++ List.map (fromLocal8Bit c) chunks
  /\ btnStart (ui m) = false /\ btnStop (ui m) = true.


(** Start was pressed and no child came up: nothing runs, the log is open,
    the Start button is disabled. *)
Definition Wedged (m : MainWindow) : Prop :=
  procState m = NotRunning /\ isOpen (logFile m) = true
  /\ btnStart (ui m) = false.

(* ===================================================================== *)
(** ** Well-formed counters *)
(* ===================================================================== *)

Definition idleSum (s : CpuSnapshot) : Z := idle s + iowait s.

Definition activeSum (s : CpuSnapshot) : Z :=
  user s + nice s + sys s + irq s + softirq s + steal s.




(** The combined delta of [cpuPercent]: idle plus active, in [quint64]. *)
Definition deltaTotal (p n : CpuSnapshot) : Z :=
  wrap64 (wrap64 (wrap64 (idleSum n) - wrap64 (idleSum p))
          + wrap64 (wrap64 (activeSum n) - wrap64 (activeSum p))).


(* ===================================================================== *)
(** ** Concrete hosts and inputs *)
(* ===================================================================== *)

Module Fixture.

(** A host on which every tool is found. *)
Definition hostAll : Host :=
  {| bashLc := fun _ => qstr "/usr/bin/tool" ++ nl;
     productType := qstr "linux";
     currentPath := qstr "/home/user";
     splitCommand := splitSpaces |}.

(** A host on which no tool is found. *)
Definition hostNone : Host :=
  {| bashLc := fun _ => [];
     productType := qstr "linux";
     currentPath := qstr "/home/user";
     splitCommand := splitSpaces |}.

(** The widgets as [buildUi] leaves them, on a machine with eight threads. *)
Definition defaults : Widgets :=
  {| rbCpu := true; rbRam := false; rbGpu := false; rbDisk := false;
     rbNet := false;
     cpuWorkers := 8; cpuDuration := 300;
     ramWorkers := 2; ramDuration := 300; ramBytes := qstr "1G";
     diskSize := qstr "1G"; diskRuntime := 60;
     diskFilename := qstr "/home/user/fio_testfile.bin";
     netServer := []; netExtra := [] |}.

(** The radio button of [k] pressed. *)
Definition pick (k : BenchmarkKind) (w : Widgets) : Widgets :=
  {| rbCpu := bool_decide (CPU = k); rbRam := bool_decide (Memory = k);
     rbGpu := bool_decide (GPU = k); rbDisk := bool_decide (Disk = k);
     rbNet := bool_decide (Network = k);
     cpuWorkers := cpuWorkers w; cpuDuration := cpuDuration w;
     ramWorkers := ramWorkers w; ramDuration := ramDuration w;
     ramBytes := ramBytes w;
     diskSize := diskSize w; diskRuntime := diskRuntime w;
     diskFilename := diskFilename w;
     netServer := netServer w; netExtra := netExtra w |}.

Definition withServer (srv extra : QString) (w : Widgets) : Widgets :=
  {| rbCpu := rbCpu w; rbRam := rbRam w; rbGpu := rbGpu w; rbDisk := rbDisk w;
     rbNet := rbNet w;
     cpuWorkers := cpuWorkers w; cpuDuration := cpuDuration w;
     ramWorkers := ramWorkers w; ramDuration := ramDuration w;
     ramBytes := ramBytes w;
     diskSize := diskSize w; diskRuntime := diskRuntime w;
     diskFilename := diskFilename w;
     netServer := srv; netExtra := extra |}.

Definition noon : DateTime :=
  {| year := 2025; month := 9; day := 6; hour := 12; minute := 0; second := 0 |}.

(** The host of a start: which tools are found, whether the log opens,
    whether the program starts. *)
Definition env (h : Host) (opens spawn : bool) : StartEnv :=
  {| host := h; homeLocation := qstr "/home/user";
     nameTime := noon; headerTime := noon;
     logOpens := fun _ => opens; spawns := fun _ => spawn; clock := 0 |}.

(** A reader of the decimal fields the kernel prints: white space is
    skipped and the digits are taken; 0 when there is none. *)
Fixpoint takeDigits (acc : Z) (s : QString) : Z * QString :=
  match s with
  | c :: r => match digitValue c with
              | Some d => takeDigits (10 * acc + d) r
              | None => (acc, s)
              end
  | [] => (acc, [])
  end.

Definition decimalField (s : QString) : Z * QString :=
  takeDigits 0 (dropSpaces s).

Definition snapshot (u i : Z) : CpuSnapshot :=
  {| user := u; nice := 0; sys := 0; idle := i; iowait := 0;
     irq := 0; softirq := 0; steal := 0; guest := 0; guest_nice := 0 |}.

End Fixture.

(* ===================================================================== *)
(** ** The kind in effect and the ranges of the spin boxes *)
(* ===================================================================== *)

(** The kind the cascade of [isChecked] tests arrives at, in [testName] as
    in [buildCommand]: the first checked button in the order CPU, RAM, GPU,
    Disk, and Network when none of these is checked. *)
Definition activeKind (w : Widgets) : BenchmarkKind :=
  if rbCpu w then CPU
  else if rbRam w then Memory
  else if rbGpu w then GPU
  else if rbDisk w then Disk
  else Network.

(** The name [testName] gives a kind. *)
Definition kindName (k : BenchmarkKind) : QString :=
  match k with
  | CPU => qstr "cpu" | Memory => qstr "ram" | GPU => qstr "gpu"
  | Disk => qstr "disk" | Network => qstr "net"
  end.

(** The ranges [buildUi] gives the spin boxes with [setRange]. *)
Definition inRanges (w : Widgets) : Prop :=
  1 <= cpuWorkers w <= 512 /\ 5 <= cpuDuration w <= 86400
  /\ 1 <= ramWorkers w <= 512 /\ 5 <= ramDuration w <= 86400
  /\ 5 <= diskRuntime w <= 3600.

(** The spin box that holds the duration of a kind, where it has one. *)
Definition durationBox (w : Widgets) (k : BenchmarkKind) : option Z :=
  match k with
  | CPU => Some (cpuDuration w)
  | Memory => Some (ramDuration w)
  | Disk => Some (diskRuntime w)
  | GPU | Network => None
  end.

(* ===================================================================== *)
(** ** Clock readings *)
(* ===================================================================== *)

(** A date and time of day as the clock gives them: a year of four digits,
    a month, a day, and a time on the 24-hour clock. *)
Definition wellFormedTime (t : DateTime) : Prop :=
  0 <= year t < 10000 /\ 1 <= month t <= 12 /\ 1 <= day t <= 31
  /\ 0 <= hour t < 24 /\ 0 <= minute t < 60 /\ 0 <= second t < 60.

(* ===================================================================== *)
(** ** The dashboard *)
(* ===================================================================== *)

(** Successive calls of [cpuPercent], one for each reading of the
    counters, on the [static prev] they share. *)
Fixpoint cpuSamples (reads : list (option CpuSnapshot)) (st : SamplerState)
  : list Q * SamplerState :=
  match reads with
  | [] => ([], st)
  | r :: rest =>
    let (q, st1) := cpuPercent r st in
    let (qs, st2) := cpuSamples rest st1 in
    (q :: qs, st2)
  end.

(** [class DonutGauge]: the value and the caption that [setValue] stores. *)
Record DonutGauge := { m_value : Q; m_captionText : QString }.

(** [std::clamp(v, 0.0, 1.0)]. *)
Definition clamp01 (v : Q) : Q :=
  if negb (Qle_bool 0 v) then 0%Q
  else if negb (Qle_bool v 1) then 1%Q
  else v.

(** [DonutGauge::setValue]. *)
Definition setValue (v : Q) (cap : QString) (g : DonutGauge) : DonutGauge :=
  {| m_value := clamp01 v; m_captionText := cap |}.

(** [int(x)]: the fraction is dropped. *)
Definition truncate (q : Q) : Z := Z.quot (Qnum q) (Zpos (Qden q)).

(** [int(std::round(x))]: the nearest integer, halves away from zero. *)
Definition roundHalfAway (q : Q) : Z :=
  if Qle_bool 0 q then truncate (q + (1 # 2))%Q else truncate (q - (1 # 2))%Q.

(** The extent of the value arc in [paintEvent], in degrees. *)
Definition arcExtent (g : DonutGauge) : Z := truncate (280 * m_value g)%Q.

(** The number in the centre of the gauge in [paintEvent]. *)
Definition centrePercent (g : DonutGauge) : Z :=
  roundHalfAway (m_value g * 100)%Q.

(** The text in the centre of the gauge. *)
Definition centreText (g : DonutGauge) : QString :=
  number (centrePercent g) ++ qstr "%".

(** The three gauges and the [static prev] of [cpuPercent]. *)
Record Dashboard := {
  gCpu : DonutGauge; gMem : DonutGauge; gDsk : DonutGauge;
  cpuPrev : SamplerState
}.

(** What one tick of the monitor timer reads: the result of [readCpu], the
    lines of [/proc/meminfo], the result of [statvfs]. *)
Record Counters := {
  statRead : option CpuSnapshot;
  meminfoRead : option (list QString);
  rootfsRead : option StatVfs
}.

Section UpdateDashboard.

(** [QString::number(x, 'f', 1)]. *)
Variable formatF1 : Q -> QString.

(** [QString("%1 GiB / %2 GiB").arg(...)]. *)
Definition gaugeCaption (used total : Q) : QString :=
  formatF1 used ++ qstr " GiB / " ++ formatF1 total ++ qstr " GiB".

(** The out-variables of a caller that initialises them with 0. *)
Definition outValues (r : Reading) : Q * Q :=
  match snd r with Some ut => ut | None => (0%Q, 0%Q) end.

(** [MainWindow::updateDashboard]. *)
Definition updateDashboard (k : Counters) (d : Dashboard) : Dashboard :=
  let (c, st) := cpuPercent (statRead k) (cpuPrev d) in
  let mem := memPercent (meminfoRead k) in
  let dsk := rootDiskPercent (rootfsRead k) in
  {| gCpu := setValue (c / 100)%Q [] (gCpu d);
     gMem := setValue (fst mem / 100)%Q
               (gaugeCaption (fst (outValues mem)) (snd (outValues mem)))
               (gMem d);
     gDsk := setValue (fst dsk / 100)%Q
               (gaugeCaption (fst (outValues dsk)) (snd (outValues dsk)))
               (gDsk d);
     cpuPrev := st |}.

End UpdateDashboard.

(** The gauge shows a fraction: its value within [0,1], its arc within 280
    degrees, the number in its centre within 0 and 100. *)
Definition gaugeInBounds (g : DonutGauge) : Prop :=
  (0 <= m_value g /\ m_value g <= 1)%Q
  /\ 0 <= arcExtent g <= 280
  /\ 0 <= centrePercent g <= 100.

(* ===================================================================== *)
(** ** Closing the window and the dependency report *)
(* ===================================================================== *)

(** The wait window of [closeEvent], in ms. *)
Definition closeWindow : Z := 1500.

(** What [closeEvent] leaves: the window, whether the question box was
    shown, and whether the close event is accepted. *)
Record CloseResult := {
  afterClose : MainWindow;
  asked : bool;
  accepted : bool
}.

(** [MainWindow::closeEvent]; [yes] tells whether the question is answered
    with Yes, [wait] what [waitForFinished] of the given window meets. *)
Definition closeEvent (c : Codec) (yes : bool) (wait : Z -> WaitResult)
  (m : MainWindow) : CloseResult :=
  if negb (bool_decide (procState m = NotRunning)) then
    if negb yes then {| afterClose := m; asked := true; accepted := false |}
    else
      let m := send SIGTERM m in
      let m := match wait closeWindow with
               | ExitedInTime out rc => procFinished rc (readAll c out m)
               | TimedOut out => send SIGKILL (readAll c out m)
               end in
      {| afterClose := m; asked := true; accepted := true |}
  else {| afterClose := m; asked := false; accepted := true |}.

(** The tools [checkDependenciesDialog] looks for. *)
Definition dependencyTools : list QString :=
  [qstr "stress-ng"; qstr "glmark2"; qstr "fio"; qstr "iperf3"].

Definition notFound (t : QString) : QString :=
  qstr "NOT FOUND (sudo apt install " ++ t ++ qstr ")".

(** The line of one tool. *)
Definition dependencyLine (h : Host) (t : QString) : QString :=
  let (ok, p) := which h t in
  qstr " - " ++ t ++ qstr ": " ++ (if ok then p else notFound t).

(** The lines of [checkDependenciesDialog]; [pretty] is
    [QSysInfo::prettyProductName()]. *)
Definition dependencyLines (h : Host) (pretty : QString) : list QString :=
  [qstr "Dependency check (" ++ pretty ++ qstr ")"]
  ++ List.map (dependencyLine h) dependencyTools
  ++ [qstr " - (psutil not needed; using /proc/stat, meminfo, and statvfs)"].

(** [MainWindow::checkDependenciesDialog]: the text of the information
    box. *)
Definition checkDependenciesDialog (h : Host) (pretty : QString) : QString :=
  join nl (dependencyLines h pretty).

(* ===================================================================== *)
(** ** Invariants of the window *)
(* ===================================================================== *)

(** Stop is enabled exactly when Start is not; a child has an open log; an
    open log has Start disabled. *)
Definition Consistent (m : MainWindow) : Prop :=
  btnStop (ui m) = negb (btnStart (ui m))
  /\ (procState m <> NotRunning -> isOpen (logFile m) = true)
  /\ (isOpen (logFile m) = true -> btnStart (ui m) = false).


(** A press of Start on a host where every program comes up. *)
Definition spawnsAlways (ev : Event) : Prop :=
  match ev with
  | ClickStart e _ => forall cmd, spawns e cmd = true
  | _ => True
  end.
(* ===================================================================== *)
(** ** Properties of the command builder *)
(* ===================================================================== *)

Lemma max_clampedDuration d : Z.max 5 d = Spec.clampedDuration d.
Proof. unfold Spec.clampedDuration. destruct (Z.ltb_spec d 5); lia. Qed.

Lemma max_clampedWorkers n : Z.max 1 n = Spec.clampedWorkers n.
Proof. unfold Spec.clampedWorkers. destruct (Z.ltb_spec n 1); lia. Qed.

Lemma orDefault_orElse s d : orDefault (trimmed s) d = Spec.orElse s d.
Proof. reflexivity. Qed.

Lemma need_present h exe :
  fst (which h exe) = true -> need h exe = (true, []).
Proof. unfold need. intros ->. reflexivity. Qed.

Lemma need_absent h exe :
  fst (which h exe) = false -> need h exe = (false, [missingDependency exe]).
Proof. unfold need. intros ->. reflexivity. Qed.

Lemma selected_buttons k w :
  Spec.selected k w ->
  rbCpu w = bool_decide (CPU = k) /\ rbRam w = bool_decide (Memory = k)
  /\ rbGpu w = bool_decide (GPU = k) /\ rbDisk w = bool_decide (Disk = k)
  /\ rbNet w = bool_decide (Network = k).
Proof.
  intros H. repeat split.
  - apply (H CPU).
  - apply (H Memory).
  - apply (H GPU).
  - apply (H Disk).
  - apply (H Network).
Qed.

(** C1. With the button of kind [k] selected, the tool of [k] present and
    valid parameters, [buildCommand] shows no dialog and returns exactly the
    command shape of section 6 for [k], whose first token is the executable
    of [k], together with the expected duration of the table of section
    4.2: the clamped duration for CPU and Memory, the clamped runtime for
    Disk, none for GPU and Network. *)
Theorem buildCommand_shape (h : Host) (w : Widgets) (k : BenchmarkKind) :
  Spec.selected k w ->
  Spec.toolPresent h k ->
  Spec.validParameters w k ->
  buildCommand h w
    = ((Spec.commandShape h w k, Spec.expectedDuration w k), [])
  /\ head (Spec.commandShape h w k) = Some (Spec.executable k).
Proof.
  intros Hsel Htool Hvalid.
  destruct (selected_buttons k w Hsel) as (Hc & Hr & Hg & Hd & _).
  unfold buildCommand, Spec.toolPresent in *.
  destruct k; cbn in Hc, Hr, Hg, Hd, Htool, Hvalid;
    rewrite ?Hc, ?Hr, ?Hg, ?Hd; rewrite (need_present _ _ Htool); cbn [negb];
    rewrite ?max_clampedDuration, ?max_clampedWorkers, ?orDefault_orElse.
  - split; reflexivity.
  - split; reflexivity.
  - split; reflexivity.
  - split; reflexivity.
  - unfold Spec.blank in Hvalid. rewrite Hvalid. split; reflexivity.
Qed.

Lemma selected_pick k w : Spec.selected k (Fixture.pick k w).
Proof. intros k'. destruct k'; reflexivity. Qed.

Lemma buildCommand_shape_witness :
  Spec.selected CPU Fixture.defaults
  /\ Spec.toolPresent Fixture.hostAll CPU
  /\ Spec.validParameters Fixture.defaults CPU
  /\ buildCommand Fixture.hostAll Fixture.defaults
     = (([qstr "stress-ng"; qstr "--cpu"; qstr "8"; qstr "--timeout";
          qstr "300s"], Some 300), []).
Proof.
  assert (Hsel : Spec.selected CPU Fixture.defaults)
    by (intros k'; destruct k'; reflexivity).
  assert (Htool : Spec.toolPresent Fixture.hostAll CPU) by reflexivity.
  assert (Hvalid : Spec.validParameters Fixture.defaults CPU) by exact I.
  refine (conj Hsel (conj Htool (conj Hvalid _))).
  exact (proj1 (buildCommand_shape Fixture.hostAll Fixture.defaults CPU
                  Hsel Htool Hvalid)).
Defined.

(** A disk run of ten seconds: the fio command line and its duration. *)
Example buildCommand_disk :
  buildCommand Fixture.hostAll
    {| rbCpu := false; rbRam := false; rbGpu := false; rbDisk := true;
       rbNet := false; cpuWorkers := 8; cpuDuration := 300;
       ramWorkers := 2; ramDuration := 300; ramBytes := qstr "1G";
       diskSize := qstr "1G"; diskRuntime := 10; diskFilename := [];
       netServer := []; netExtra := [] |}
  = (([qstr "fio"; qstr "--name=randrw"; qstr "--rw=randrw";
       qstr "--size=1G"; qstr "--runtime=10"; qstr "--time_based=1";
       qstr "--filename=/home/user/fio_testfile.bin";
       qstr "--ioengine=libaio"; qstr "--direct=1"], Some 10), []).
Proof. reflexivity. Qed.

(** The clamps act below the ranges of the spin boxes. *)
Example buildCommand_clamps :
  fst (buildCommand Fixture.hostAll
         {| rbCpu := true; rbRam := false; rbGpu := false; rbDisk := false;
            rbNet := false; cpuWorkers := 0; cpuDuration := -3;
            ramWorkers := 2; ramDuration := 300; ramBytes := [];
            diskSize := []; diskRuntime := 10; diskFilename := [];
            netServer := []; netExtra := [] |})
  = ([qstr "stress-ng"; qstr "--cpu"; qstr "1"; qstr "--timeout"; qstr "5s"],
     Some 5).
Proof. reflexivity. Qed.

(** A missing tool stops the builder, whatever the kind. *)
Lemma buildCommand_missing_tool (h : Host) (w : Widgets) (k : BenchmarkKind) :
  Spec.selected k w ->
  fst (which h (Spec.executable k)) = false ->
  buildCommand h w = (noCommand, [missingDependency (Spec.executable k)]).
Proof.
  intros Hsel Htool.
  destruct (selected_buttons k w Hsel) as (Hc & Hr & Hg & Hd & _).
  unfold buildCommand.
  destruct k; cbn in Hc, Hr, Hg, Hd, Htool;
    rewrite ?Hc, ?Hr, ?Hg, ?Hd; rewrite (need_absent _ _ Htool); reflexivity.
Qed.

(** With iperf3 present, a blank server address stops the builder with the
    input error. *)
Lemma buildCommand_blank_server (h : Host) (w : Widgets) :
  Spec.selected Network w ->
  Spec.toolPresent h Network ->
  Spec.blank (netServer w) = true ->
  buildCommand h w = (noCommand, [inputError]).
Proof.
  intros Hsel Htool Hblank.
  destruct (selected_buttons _ w Hsel) as (Hc & Hr & Hg & Hd & _).
  unfold buildCommand, Spec.toolPresent, Spec.blank in *.
  cbn in Hc, Hr, Hg, Hd, Htool.
  rewrite Hc, Hr, Hg, Hd, (need_present _ _ Htool). cbn [negb].
  rewrite Hblank. reflexivity.
Qed.

(* ===================================================================== *)
(** ** Properties of the run supervisor *)
(* ===================================================================== *)

Lemma not_running_test m :
  procState m = NotRunning ->
  negb (bool_decide (procState m = NotRunning)) = false.
Proof. intros ->. reflexivity. Qed.

Lemma running_test m :
  procState m <> NotRunning ->
  negb (bool_decide (procState m = NotRunning)) = true.
Proof. intros H. rewrite bool_decide_eq_false_2; [reflexivity | exact H]. Qed.

(** When the builder returns no command, [startClicked] shows the dialogs
    of the builder and does nothing else. *)
Lemma startClicked_no_command e w m exp dlg :
  procState m = NotRunning ->
  buildCommand (host e) w = (([], exp), dlg) ->
  startClicked e w m = showDialogs dlg m.
Proof.
  intros Hidle Hcmd. unfold startClicked.
  rewrite (not_running_test _ Hidle), Hcmd. reflexivity.
Qed.

Lemma showDialogs_Idle ds m : Idle m -> Idle (showDialogs ds m).
Proof. intros H. exact H. Qed.

(** When the log cannot be opened, [startClicked] reports it and starts
    nothing: the supervisor stays idle. *)
Lemma startClicked_log_failure e w m cmd exp dlg :
  Idle m ->
  buildCommand (host e) w = ((cmd, exp), dlg) ->
  cmd <> [] ->
  logOpens e (logFileName e w) = false ->
  let m' := startClicked e w m in
  Idle m' /\ sent m' = sent m
  /\ dialogs (ui m') = dialogs (ui m) ++ dlg ++ [loggingError (logFileName e w)].
Proof.
  intros (Hp & Hl & Hb) Hcmd Hne Hopen. unfold startClicked.
  rewrite (not_running_test _ Hp), Hcmd.
  destruct cmd as [|c0 cmd]; [congruence|]. cbn [isEmpty].
  rewrite Hopen. cbn. rewrite <- app_assoc. repeat split; assumption.
Qed.

(** C7. [startClicked] while a child exists ([proc.state()] is not
    [NotRunning]) only shows the [Busy] warning: the child, the signals
    sent to it, the log file, the expected duration, the timers, the
    buttons, the progress bar, the ETA, the status and the output view are
    as they were. *)
Theorem start_while_running_is_noop (e : StartEnv) (w : Widgets) (m : MainWindow) :
  procState m <> NotRunning ->
  let m' := startClicked e w m in
  dialogs (ui m') = dialogs (ui m) ++ [busy]
  /\ procState m' = procState m /\ sent m' = sent m
  /\ logFile m' = logFile m
  /\ expectedSeconds m' = expectedSeconds m /\ runStart m' = runStart m
  /\ timers m' = timers m
  /\ btnStart (ui m') = btnStart (ui m) /\ btnStop (ui m') = btnStop (ui m)
  /\ progressMin (ui m') = progressMin (ui m)
  /\ progressMax (ui m') = progressMax (ui m)
  /\ progressValue (ui m') = progressValue (ui m)
  /\ eta (ui m') = eta (ui m) /\ status (ui m') = status (ui m)
  /\ output (ui m') = output (ui m).
Proof.
  intros Hrun. unfold startClicked. rewrite (running_test _ Hrun).
  cbn. repeat split.
Qed.

Lemma start_while_running_is_noop_witness :
  let m := startClicked (Fixture.env Fixture.hostAll true true)
             Fixture.defaults initial in
  let m' := startClicked (Fixture.env Fixture.hostAll true true)
              Fixture.defaults m in
  procState m <> NotRunning
  /\ dialogs (ui m') = [busy]
  /\ procState m' = Starting /\ logFile m' = logFile m.
Proof.
  assert (H : procState (startClicked (Fixture.env Fixture.hostAll true true)
                           Fixture.defaults initial) <> NotRunning)
    by (vm_compute; discriminate).
  pose proof (start_while_running_is_noop
                (Fixture.env Fixture.hostAll true true) Fixture.defaults _ H)
    as (Hd & Hp & _ & Hl & _).
  refine (conj H (conj Hd (conj Hp Hl))).
Defined.

(** C6, as amended. Pressing Start for a network run with a blank server
    address produces no command and changes nothing but the dialogs shown:
    the run state, the log file and the child are untouched, so an idle
    supervisor stays idle, no log is opened and nothing is started. The
    dialog is the input error when iperf3 is found; when it is not found,
    the dependency check, which comes first, shows the missing-dependency
    error instead. *)
Theorem blank_server_is_rejected (e : StartEnv) (w : Widgets) (m : MainWindow) :
  procState m = NotRunning ->
  Spec.selected Network w ->
  Spec.blank (netServer w) = true ->
  let m' := startClicked e w m in
  fst (buildCommand (host e) w) = noCommand
  /\ m' = showDialogs
            [if fst (which (host e) (qstr "iperf3"))
             then inputError else missingDependency (qstr "iperf3")] m
  /\ procState m' = NotRunning /\ sent m' = sent m /\ logFile m' = logFile m
  /\ (Idle m -> Idle m').
Proof.
  intros Hidle Hsel Hblank m'. subst m'.
  destruct (fst (which (host e) (qstr "iperf3"))) eqn:Htool.
  - pose proof (buildCommand_blank_server (host e) w Hsel Htool Hblank) as Hcmd.
    rewrite (startClicked_no_command e w m None _ Hidle Hcmd), Hcmd.
    repeat split; try assumption; apply H.
  - pose proof (buildCommand_missing_tool (host e) w Network Hsel Htool) as Hcmd.
    rewrite (startClicked_no_command e w m None _ Hidle Hcmd), Hcmd.
    repeat split; try assumption; apply H.
Qed.

Lemma blank_server_is_rejected_witness :
  let e := Fixture.env Fixture.hostAll true true in
  let w := Fixture.withServer (qstr "   ") [] (Fixture.pick Network Fixture.defaults) in
  procState initial = NotRunning
  /\ Spec.selected Network w
  /\ Spec.blank (netServer w) = true
  /\ startClicked e w initial = showDialogs [inputError] initial.
Proof.
  intros e w.
  assert (Hsel : Spec.selected Network w)
    by (intros k'; destruct k'; reflexivity).
  assert (Hblank : Spec.blank (netServer w) = true) by reflexivity.
  refine (conj eq_refl (conj Hsel (conj Hblank _))).
  exact (proj1 (proj2 (blank_server_is_rejected e w initial eq_refl Hsel Hblank))).
Defined.

(** C6 as stated fails where iperf3 is not installed: the blank address is
    then answered with the dependency error, not with the input error. *)
Lemma blank_server_dependency_error :
  let e := Fixture.env Fixture.hostNone true true in
  let w := Fixture.pick Network Fixture.defaults in
  let m := startClicked e w initial in
  Idle initial /\ Spec.selected Network w /\ Spec.blank (netServer w) = true
  /\ dialogs (ui m) = [missingDependency (qstr "iperf3")]
  /\ ~ In inputError (dialogs (ui m)).
Proof.
  cbv zeta. split; [repeat split|]. split; [apply selected_pick|].
  split; [reflexivity|]. split; [reflexivity|].
  intros [H|[]]. discriminate H.
Qed.

Lemma stop_idle c wait m :
  procState m = NotRunning ->
  stopClicked c wait m = m /\ step c m (ClickStop wait) = m.
Proof.
  intros Hidle. unfold step, stopClicked.
  rewrite (not_running_test _ Hidle). split; [reflexivity|].
  destruct (btnStop (ui m)); reflexivity.
Qed.

(** C10. [stopClicked] without a child ([proc.state()] is [NotRunning])
    returns the window as it was: no message, no signal, no change of the
    log, the progress, the buttons or the status; so does a press of Stop. *)
Theorem stop_when_idle_is_noop (c : Codec) (wait : Z -> WaitResult) (m : MainWindow) :
  procState m = NotRunning ->
  stopClicked c wait m = m /\ step c m (ClickStop wait) = m.
Proof.
  intros Hidle. split.
  - unfold stopClicked. rewrite (not_running_test _ Hidle). reflexivity.
  - unfold step. destruct (btnStop (ui m)); [|reflexivity].
    unfold stopClicked. rewrite (not_running_test _ Hidle). reflexivity.
Qed.

Lemma stop_when_idle_is_noop_witness :
  procState initial = NotRunning
  /\ stopClicked Utf8.codec (fun _ => TimedOut []) initial = initial.
Proof.
  refine (conj eq_refl _).
  exact (proj1 (stop_when_idle_is_noop Utf8.codec (fun _ => TimedOut []) initial
                  eq_refl)).
Defined.

(** What reading output leaves alone, and what it adds to an open log. *)
Lemma readOutput_frame c b m :
  let m' := readOutput c b m in
  procState m' = procState m /\ sent m' = sent m
  /\ isOpen (logFile m') = isOpen (logFile m)
  /\ fileName (logFile m') = fileName (logFile m)
  /\ btnStart (ui m') = btnStart (ui m) /\ btnStop (ui m') = btnStop (ui m)
  /\ dialogs (ui m') = dialogs (ui m)
  /\ expectedSeconds m' = expectedSeconds m
  /\ written (logFile m')
     = written (logFile m)
       ++ (if isOpen (logFile m) then [fromLocal8Bit c b] else []).
Proof.
  unfold readOutput. cbn. destruct (isOpen (logFile m)) eqn:Ho; cbn;
    rewrite ?Ho, ?app_nil_r; repeat split.
Qed.

Lemma readAll_frame c out m :
  let m' := readAll c out m in
  procState m' = procState m /\ sent m' = sent m
  /\ isOpen (logFile m') = isOpen (logFile m)
  /\ fileName (logFile m') = fileName (logFile m)
  /\ btnStart (ui m') = btnStart (ui m) /\ btnStop (ui m') = btnStop (ui m)
  /\ dialogs (ui m') = dialogs (ui m)
  /\ expectedSeconds m' = expectedSeconds m
  /\ written (logFile m')
     = written (logFile m)
       ++ (if isOpen (logFile m) then List.map (fromLocal8Bit c) out else []).
Proof.
  revert m. induction out as [|b out IH]; intros m.
  - cbn. destruct (isOpen (logFile m)); repeat split;
      rewrite ?app_nil_r; reflexivity.
  - cbn [readAll fold_left]. fold (readAll c out (readOutput c b m)).
    specialize (IH (readOutput c b m)). cbv zeta in IH.
    destruct IH as (H1 & H2 & H3 & H4 & H5 & H6 & H7 & H8 & H9).
    destruct (readOutput_frame c b m) as (G1 & G2 & G3 & G4 & G5 & G6 & G7 & G8 & G9).
    cbv zeta. rewrite H1, H2, H3, H4, H5, H6, H7, H8, H9, G1, G2, G3, G4, G5, G6, G7, G8, G9.
    repeat split.
    destruct (isOpen (logFile m)); cbn; rewrite <- ?app_assoc; reflexivity.
Qed.

Lemma procFinished_Idle rc m : Idle (procFinished rc m).
Proof.
  unfold Idle, procFinished. cbn. destruct (isOpen (logFile m)) eqn:Ho;
    cbn; rewrite ?Ho; repeat split.
Qed.

(** C8. [stopClicked] with a child sends the graceful signal first and
    waits in a window of 3000 ms. When the child exits within the window,
    no further signal is sent and the exit event, delivered from inside the
    wait, has put the supervisor back to idle. When the window passes, the
    kill signal follows the graceful one, the child is still there, and the
    exit event that the event loop delivers afterwards puts the supervisor
    back to idle, whatever the exit code. *)
Theorem stop_terminates_then_kills (c : Codec) (wait : Z -> WaitResult) (m : MainWindow) :
  procState m <> NotRunning ->
  let m' := stopClicked c wait m in
  match wait 3000 with
  | ExitedInTime _ _ => sent m' = sent m ++ [SIGTERM] /\ Idle m'
  | TimedOut _ =>
    sent m' = sent m ++ [SIGTERM; SIGKILL]
    /\ procState m' = procState m
    /\ status (ui m') = qstr "Stopping" ++ ellipsis
    /\ forall rc, Idle (step c m' (ProcFinished rc))
  end.
Proof.
  intros Hrun. unfold stopClicked. rewrite (running_test _ Hrun).
  change stopWindow with 3000.
  set (m1 := send SIGTERM (onOutput _ m)).
  assert (Hp1 : procState m1 = procState m) by reflexivity.
  assert (Hs1 : sent m1 = sent m ++ [SIGTERM]) by reflexivity.
  destruct (readAll_frame c) with (out := match wait 3000 with
                                          | ExitedInTime o _ => o
                                          | TimedOut o => o
                                          end) (m := m1)
    as (H1 & H2 & _).
  destruct (wait 3000) as [out rc|out]; cbv zeta.
  - split.
    + change (sent (readAll c out m1) = sent m ++ [SIGTERM]). congruence.
    + apply (procFinished_Idle rc).
  - split; [|split; [|split]].
    + change (sent (readAll c out m1) ++ [SIGKILL] = sent m ++ [SIGTERM; SIGKILL]).
      rewrite H2, Hs1, <- app_assoc. reflexivity.
    + change (procState (readAll c out m1) = procState m). congruence.
    + reflexivity.
    + intros rc. unfold step.
      change (procState (showMessage _ (send SIGKILL (readAll c out m1))))
        with (procState (readAll c out m1)).
      rewrite H1, Hp1. rewrite bool_decide_eq_false_2 by exact Hrun.
      apply procFinished_Idle.
Qed.

Lemma stop_terminates_then_kills_witness :
  let m := startClicked (Fixture.env Fixture.hostAll true true)
             Fixture.defaults initial in
  let m' := stopClicked Utf8.codec (fun _ => TimedOut []) m in
  procState m <> NotRunning
  /\ sent m' = [SIGTERM; SIGKILL]
  /\ procState m' = Starting
  /\ Idle (step Utf8.codec m' (ProcFinished 9)).
Proof.
  assert (H : procState (startClicked (Fixture.env Fixture.hostAll true true)
                           Fixture.defaults initial) <> NotRunning)
    by (vm_compute; discriminate).
  pose proof (stop_terminates_then_kills Utf8.codec (fun _ => TimedOut []) _ H)
    as (Hs & Hp & _ & Hi).
  refine (conj H (conj Hs (conj Hp (Hi 9)))).
Defined.

Lemma startClicked_spawn_failure e w m cmd exp dlg :
  procState m = NotRunning ->
  buildCommand (host e) w = ((cmd, exp), dlg) ->
  cmd <> [] ->
  logOpens e (logFileName e w) = true ->
  spawns e cmd = false ->
  let m' := startClicked e w m in
  Wedged m' /\ dialogs (ui m') = dialogs (ui m) ++ dlg.
Proof.
  intros Hp Hcmd Hne Hopen Hspawn. unfold startClicked.
  rewrite (not_running_test _ Hp), Hcmd.
  destruct cmd as [|c0 cmd]; [congruence|]. cbn [isEmpty].
  rewrite Hopen, Hspawn. cbn. repeat split.
Qed.

(** No event leads out of the wedged state. *)
Lemma wedged_step c m ev : Wedged m -> Wedged (step c m ev).
Proof.
  intros (Hp & Hl & Hb). unfold step. destruct ev as [e w|wait| |bytes|rc|now].
  - rewrite Hb. repeat split; assumption.
  - destruct (btnStop (ui m)); [|repeat split; assumption].
    unfold stopClicked. rewrite (not_running_test _ Hp). repeat split; assumption.
  - rewrite Hp. cbn. repeat split; assumption.
  - destruct (readOutput_frame c bytes m) as (G1 & _ & G3 & _ & G5 & _).
    unfold Wedged. rewrite G1, G3, G5. repeat split; assumption.
  - rewrite Hp. cbn. repeat split; assumption.
  - destruct (timers m) as [|k]; [repeat split; assumption|].
    unfold tickProgress. cbn [procState setTimers]. rewrite Hp. cbn.
    repeat split; assumption.
Qed.

Lemma wedged_run c evs m : Wedged m -> Wedged (run c m evs).
Proof.
  revert m. induction evs as [|ev evs IH]; intros m H; [exact H|].
  cbn. apply IH, wedged_step, H.
Qed.

(** C2 (failing input). Start pressed on an idle window, stress-ng found,
    the log opened, and the program does not come up: no dialog reports it,
    the log file stays open and the Start button stays disabled, and no
    later event changes that. *)
Theorem spawn_failure_is_not_reported :
  let e := Fixture.env Fixture.hostAll true false in
  let m := startClicked e Fixture.defaults initial in
  Idle initial
  /\ dialogs (ui m) = []
  /\ procState m = NotRunning
  /\ isOpen (logFile m) = true
  /\ btnStart (ui m) = false
  /\ forall c evs, let m' := run c m evs in
       isOpen (logFile m') = true /\ btnStart (ui m') = false.
Proof.
  cbv zeta. split; [repeat split|]. do 4 (split; [reflexivity|]).
  intros c evs.
  refine (proj2 (wedged_run c evs _ _)). repeat split.
Qed.

(* ===================================================================== *)
(** ** Properties of the metrics sampler *)
(* ===================================================================== *)


Lemma wrap64_range z : 0 <= wrap64 z < 2 ^ 64.
Proof. unfold wrap64. apply Z.mod_pos_bound. reflexivity. Qed.

Lemma wrap64_diag z : wrap64 (z - z) = 0.
Proof. rewrite Z.sub_diag. reflexivity. Qed.




Lemma digitValue_range c d : digitValue c = Some d -> 0 <= d <= 9.
Proof.
  unfold digitValue. destruct ((48 <=? c) && (c <=? 57))%N eqn:H; [|discriminate].
  intros [= <-]. apply andb_true_iff in H as [H1 H2].
  apply N.leb_le in H1, H2. lia.
Qed.

Lemma digitsValue_nonneg s : forall acc v,
  0 <= acc -> digitsValue acc s = Some v -> 0 <= v.
Proof.
  induction s as [|c r IH]; intros acc v Hacc; cbn.
  - intros [= <-]. exact Hacc.
  - destruct (digitValue c) as [d|] eqn:Hd; [|discriminate].
    apply digitValue_range in Hd. apply IH. lia.
Qed.

Lemma toULongLong_range s v : toULongLong s = Some v -> 0 <= v < 2 ^ 64.
Proof.
  unfold toULongLong.
  set (body := match s with 43%N :: r => r | _ => s end).
  destruct body as [|c r]; [discriminate|].
  destruct (digitsValue 0 (c :: r)) as [x|] eqn:Hx; [|discriminate].
  destruct (Z.ltb_spec x (2 ^ 64)); [|discriminate].
  intros [= <-]. split; [|assumption].
  eapply digitsValue_nonneg; [|exact Hx]. lia.
Qed.







Lemma cpuPercent_total p n :
  fst (cpuPercent (Some n) (Some (Some p)))
  = if deltaTotal p n <=? 0 then 0%Q
    else (inject_Z (wrap64 (wrap64 (activeSum n) - wrap64 (activeSum p)))
          / inject_Z (deltaTotal p n) * 100)%Q.
Proof. reflexivity. Qed.

(** The guard of [cpuPercent]: a combined delta of zero or less reads 0. *)
Lemma cpuPercent_guard p n :
  deltaTotal p n <= 0 -> fst (cpuPercent (Some n) (Some (Some p))) = 0%Q.
Proof.
  intros H. rewrite cpuPercent_total.
  destruct (Z.leb_spec (deltaTotal p n) 0); [reflexivity | lia].
Qed.

(** The first call: [prev] is initialised from the same counters as
    [now]. *)
Lemma cpuPercent_first_call read : fst (cpuPercent read None) = 0%Q.
Proof.
  destruct read as [n|]; [|reflexivity].
  change (cpuPercent (Some n) None) with (cpuPercent (Some n) (Some (Some n))).
  apply cpuPercent_guard. unfold deltaTotal. rewrite !wrap64_diag.
  change (wrap64 (0 + 0)) with 0. lia.
Qed.

(** Counters equal to the stored ones. *)
Lemma cpuPercent_same_counters n :
  fst (cpuPercent (Some n) (Some (Some n))) = 0%Q.
Proof. apply (cpuPercent_first_call (Some n)). Qed.








(** The aggregate line of [/proc/stat], and the line of one processor,
    whose tag differs. *)
Example readCpu_aggregate_line :
  readCpu Fixture.decimalField
    (Some (qstr "cpu  1000 0 0 5000 0 0 0 0 0 0" ++ nl))
  = Some (Fixture.snapshot 1000 5000).
Proof. reflexivity. Qed.

Example readCpu_processor_line :
  readCpu Fixture.decimalField (Some (qstr "cpu0 1000 0 0 5000 0 0 0 0 0 0"))
  = None.
Proof. reflexivity. Qed.

(** Three tenths of the time passed since the last call were busy. *)
Example cpuPercent_busy :
  (fst (cpuPercent (Some (Fixture.snapshot 1300 5700))
          (Some (Some (Fixture.snapshot 1000 5000)))) == 30)%Q.
Proof. reflexivity. Qed.

(** A quarter of the memory available: three quarters used. *)
Example memPercent_three_quarters :
  let r := memPercent (Some [qstr "MemTotal:       16777216 kB";
                             qstr "MemFree:         1000000 kB";
                             qstr "MemAvailable:    4194304 kB"]) in
  (fst r == 75)%Q
  /\ match snd r with
     | Some (usedGiB, totalGiB) => (usedGiB == 12 /\ totalGiB == 16)%Q
     | None => False
     end.
Proof. cbv zeta. split; [reflexivity|]. vm_compute. split; reflexivity. Qed.

(** C4 (failing input). After a counter reset, the current counters below
    the stored ones, the differences wrap around in [quint64], the combined
    delta is large instead of negative, the guard does not fire and the
    call reports about 100 percent, not 0. *)
Theorem cpuPercent_after_counter_reset :
  let prev := Fixture.snapshot 1000 5000 in
  let now := Fixture.snapshot 10 50 in
  deltaTotal prev now = 2 ^ 64 - 5940
  /\ (fst (cpuPercent (Some now) (Some (Some prev)))
      == inject_Z (2 ^ 64 - 990) / inject_Z (2 ^ 64 - 5940) * 100)%Q
  /\ (99 < fst (cpuPercent (Some now) (Some (Some prev))))%Q
  /\ ~ (fst (cpuPercent (Some now) (Some (Some prev))) == 0)%Q.
Proof.
  cbv zeta. split; [reflexivity|]. split; [reflexivity|]. split.
  - reflexivity.
  - intros H. discriminate H.
Qed.




(* ===================================================================== *)
(** ** The log of a run *)
(* ===================================================================== *)

Lemma start_opens_run c e w m cmd exp dlg :
  procState m = NotRunning -> btnStart (ui m) = true ->
  buildCommand (host e) w = ((cmd, exp), dlg) ->
  cmd <> [] ->
  logOpens e (logFileName e w) = true ->
  spawns e cmd = true ->
  RunInv c (logHeader e cmd) [] (step c m (ClickStart e w)).
Proof.
  intros Hp Hb Hcmd Hne Hopen Hspawn. unfold step, startClicked.
  rewrite Hb, (not_running_test _ Hp), Hcmd.
  destruct cmd as [|c0 cmd]; [congruence|]. cbn [isEmpty].
  rewrite Hopen, Hspawn. unfold RunInv.
  cbn [procState logFile isOpen written ui btnStart btnStop List.map].
  rewrite app_nil_r. split; [discriminate|]. repeat split.
Qed.

Lemma tickProgress_frame now m :
  let m' := tickProgress now m in
  procState m' = procState m /\ sent m' = sent m /\ logFile m' = logFile m
  /\ btnStart (ui m') = btnStart (ui m) /\ btnStop (ui m') = btnStop (ui m)
  /\ dialogs (ui m') = dialogs (ui m).
Proof.
  unfold tickProgress.
  destruct (negb (bool_decide (procState m = NotRunning))); [|repeat split].
  destruct (expectedSeconds m); repeat split.
Qed.

Lemma step_keeps_run c hdr chunks m ev :
  RunInv c hdr chunks m -> keepsRunning ev ->
  RunInv c hdr (chunks ++ arrivals ev) (step c m ev).
Proof.
  intros (Hp & Ho & Hw & Hb & Hs) Hk.
  destruct ev as [e w|wait| |bytes|rc|now]; cbn [step arrivals].
  - rewrite Hb, app_nil_r. repeat split; assumption.
  - rewrite Hs. unfold stopClicked. rewrite (running_test _ Hp).
    cbn in Hk. destruct (wait stopWindow) as [out rc|out]; [contradiction|].
    set (m1 := send SIGTERM (onOutput _ m)).
    destruct (readAll_frame c out m1) as (G1 & _ & G3 & _ & G5 & G6 & _ & _ & G9).
    unfold RunInv. cbn [procState isOpen logFile written btnStart btnStop ui
                        showMessage send withUi].
    rewrite G1, G3, G5, G6, G9.
    change (isOpen (logFile m1)) with (isOpen (logFile m)).
    change (written (logFile m1)) with (written (logFile m)).
    rewrite Ho, Hw, List.map_app, app_assoc. repeat split; assumption.
  - rewrite app_nil_r. case_bool_decide as Hst;
      repeat split; try assumption. discriminate.
  - destruct (readOutput_frame c bytes m) as (G1 & _ & G3 & _ & G5 & G6 & _ & _ & G9).
    unfold RunInv. rewrite G1, G3, G5, G6, G9, Ho, Hw, List.map_app, app_assoc.
    repeat split; assumption.
  - contradiction.
  - rewrite app_nil_r. destruct (timers m) as [|k]; [repeat split; assumption|].
    destruct (tickProgress_frame now (setTimers k m)) as (G1 & _ & G3 & G4 & G5 & _).
    unfold RunInv. rewrite G1, G3, G4, G5. repeat split; assumption.
Qed.

Lemma run_keeps_run c hdr evs : forall chunks m,
  RunInv c hdr chunks m -> Forall keepsRunning evs ->
  RunInv c hdr (chunks ++ concat (List.map arrivals evs)) (run c m evs).
Proof.
  induction evs as [|ev evs IH]; intros chunks m Hinv Hall.
  - cbn. rewrite app_nil_r. exact Hinv.
  - inversion Hall as [|? ? Hev Hrest]; subst.
    cbn [run fold_left List.map concat]. fold (run c (step c m ev) evs).
    rewrite app_assoc. apply IH; [|exact Hrest].
    apply step_keeps_run; assumption.
Qed.

Lemma exit_closes_log c hdr chunks m ev rc :
  RunInv c hdr chunks m -> exitsWith rc ev ->
  let m' := step c m ev in
  written (logFile m')
  = hdr ++ List.map (fromLocal8Bit c) (chunks ++ arrivals ev) ++ logFooter rc
  /\ Idle m'.
Proof.
  intros (Hp & Ho & Hw & Hb & Hs) Hx.
  destruct ev as [e w|wait| |bytes|rc'|now]; cbn in Hx; try contradiction;
    cbn [step arrivals].
  - rewrite Hs. unfold stopClicked. rewrite (running_test _ Hp).
    destruct (wait stopWindow) as [out rc'|out]; [subst rc'|contradiction].
    set (m1 := send SIGTERM (onOutput _ m)).
    destruct (readAll_frame c out m1) as (_ & _ & G3 & _ & _ & _ & _ & _ & G9).
    change (isOpen (logFile m1)) with (isOpen (logFile m)) in G3, G9.
    change (written (logFile m1)) with (written (logFile m)) in G9.
    rewrite Ho in G3, G9. cbv zeta. split; [|apply (procFinished_Idle rc)].
    cbn [logFile showMessage withUi procFinished]. rewrite G3.
    cbn [written]. rewrite G9, Hw, List.map_app, <- !app_assoc. reflexivity.
  - subst rc'. rewrite bool_decide_eq_false_2 by exact Hp.
    cbv zeta. split; [|apply procFinished_Idle].
    cbn [logFile procFinished]. rewrite Ho. cbn [written].
    rewrite Hw, app_nil_r, <- app_assoc. reflexivity.
Qed.






(** A disk run of ten seconds: the duration drives the ETA from 00:10 down
    to 00:00, and after a clean exit the log holds the header with the fio
    command line and the footer [[exit] 0]. *)
Example disk_run_scenario :
  let e := Fixture.env Fixture.hostAll true true in
  let w := Fixture.pick Disk
             {| rbCpu := false; rbRam := false; rbGpu := false; rbDisk := true;
                rbNet := false; cpuWorkers := 8; cpuDuration := 300;
                ramWorkers := 2; ramDuration := 300; ramBytes := qstr "1G";
                diskSize := qstr "1G"; diskRuntime := 10;
                diskFilename := qstr "/tmp/t.bin";
                netServer := []; netExtra := [] |} in
  let m1 := run Utf8.codec initial [ClickStart e w; ProcStarted] in
  let m2 := step Utf8.codec m1 (TimerFired 200) in
  let m3 := step Utf8.codec m2 (TimerFired 4700) in
  let m4 := step Utf8.codec m3 (TimerFired 10100) in
  let m5 := step Utf8.codec m4 (ProcFinished 0) in
  expectedSeconds m1 = Some 10
  /\ eta (ui m2) = qstr "ETA: 00:10" /\ progressValue (ui m2) = 0
  /\ eta (ui m3) = qstr "ETA: 00:06" /\ progressValue (ui m3) = 4
  /\ eta (ui m4) = qstr "ETA: 00:00" /\ progressValue (ui m4) = 10
  /\ Idle m5
  /\ written (logFile m5)
     = [APP_NAME; qstr " Log - "; qstr "2025-09-06T12:00:00"; nl;
        qstr "Command: ";
        qstr "fio --name=randrw --rw=randrw --size=1G --runtime=10 --time_based=1 --filename=/tmp/t.bin --ioengine=libaio --direct=1";
        nl ++ nl;
        nl ++ qstr "[exit] "; qstr "0"; nl].
Proof. cbv zeta. repeat split. Qed.

(* ===================================================================== *)
(** ** The states the window can reach *)
(* ===================================================================== *)

Lemma idle_step c m ev :
  Idle m ->
  Idle (step c m ev) \/ (exists hdr, RunInv c hdr [] (step c m ev))
  \/ Wedged (step c m ev).
Proof.
  intros Hidle. pose proof Hidle as (Hp & Hl & Hb).
  destruct ev as [e w|wait| |bytes|rc|now].
  - destruct (buildCommand (host e) w) as [[cmd exp] dlg] eqn:Hcmd.
    destruct cmd as [|c0 cmd].
    + left. cbn [step]. rewrite Hb.
      rewrite (startClicked_no_command e w m exp dlg Hp Hcmd). exact Hidle.
    + destruct (logOpens e (logFileName e w)) eqn:Hopen.
      * destruct (spawns e (c0 :: cmd)) eqn:Hspawn.
        -- right. left. exists (logHeader e (c0 :: cmd)).
           eapply start_opens_run; eauto; discriminate.
        -- right. right. cbn [step]. rewrite Hb.
           eapply startClicked_spawn_failure; eauto; discriminate.
      * left. cbn [step]. rewrite Hb.
        eapply startClicked_log_failure; eauto; discriminate.
  - left. rewrite (proj2 (stop_idle c wait m Hp)). exact Hidle.
  - left. cbn [step]. rewrite Hp. exact Hidle.
  - left. cbn [step].
    destruct (readOutput_frame c bytes m) as (G1 & _ & G3 & _ & G5 & _).
    unfold Idle. rewrite G1, G3, G5. exact Hidle.
  - left. cbn [step]. rewrite Hp. exact Hidle.
  - left. cbn [step]. destruct (timers m) as [|k]; [exact Hidle|].
    destruct (tickProgress_frame now (setTimers k m)) as (G1 & _ & G3 & G4 & _).
    unfold Idle. rewrite G1, G3, G4. exact Hidle.
Qed.

Lemma running_step c hdr chunks m ev :
  RunInv c hdr chunks m ->
  RunInv c hdr (chunks ++ arrivals ev) (step c m ev) \/ Idle (step c m ev).
Proof.
  intros Hinv.
  assert (Hcase : keepsRunning ev \/ exists rc, exitsWith rc ev).
  { destruct ev as [e w|wait| |bytes|rc|now]; cbn; eauto.
    destruct (wait stopWindow); eauto. }
  destruct Hcase as [Hk|[rc Hx]].
  - left. apply step_keeps_run; assumption.
  - right. eapply exit_closes_log; eassumption.
Qed.

(** Whatever the events, the window is idle, or in a run with the log open
    and holding the header and the output so far, or wedged after a failed
    spawn. *)
Lemma reachable_states c evs :
  let m := run c initial evs in
  Idle m \/ (exists hdr chunks, RunInv c hdr chunks m) \/ Wedged m.
Proof.
  cbv zeta.
  assert (G : forall m,
             Idle m \/ (exists hdr chunks, RunInv c hdr chunks m) \/ Wedged m ->
             Idle (run c m evs)
             \/ (exists hdr chunks, RunInv c hdr chunks (run c m evs))
             \/ Wedged (run c m evs)).
  { induction evs as [|ev evs IH]; intros m H; [exact H|].
    cbn [run fold_left]. apply IH.
    destruct H as [Hi|[(hdr & chunks & Hr)|Hw]].
    - destruct (idle_step c m ev Hi) as [H|[(hdr & H)|H]]; eauto.
    - destruct (running_step c hdr chunks m ev Hr) as [H|H]; eauto.
    - right. right. apply wedged_step, Hw. }
  apply G. left. repeat split.
Qed.

(* ===================================================================== *)
(** ** Further properties of the command builder *)
(* ===================================================================== *)

Lemma testName_activeKind w : testName w = kindName (activeKind w).
Proof.
  unfold testName, activeKind.
  destruct (rbCpu w), (rbRam w), (rbGpu w), (rbDisk w); reflexivity.
Qed.

Lemma need_cases h exe :
  need h exe = (true, []) \/ need h exe = (false, [missingDependency exe]).
Proof. unfold need. destruct (fst (which h exe)); auto. Qed.

(** X1. [buildCommand] returns the empty command exactly when it has shown
    a dialog, it shows at most one, and an empty command never carries a
    duration: the silent return of [startClicked] on an empty command is
    always preceded by a message, and a command is never built after one. *)
Theorem buildCommand_refusal_iff_dialog (h : Host) (w : Widgets) :
  (fst (fst (buildCommand h w)) = [] <-> snd (buildCommand h w) <> [])
  /\ (length (snd (buildCommand h w)) <= 1)%nat
  /\ (fst (fst (buildCommand h w)) = [] -> snd (fst (buildCommand h w)) = None).
Proof.
  unfold buildCommand.
  destruct (rbCpu w); [|destruct (rbRam w); [|destruct (rbGpu w);
    [|destruct (rbDisk w)]]];
    match goal with |- context [need h ?exe] =>
      destruct (need_cases h exe) as [-> | ->] end; cbn [negb fst snd];
    try (destruct (isEmpty (trimmed (netServer w))); cbn [fst snd app]);
    (split; [split; [intros H; try discriminate H; try (intros H'; discriminate H')
                    | intros H; try reflexivity; exfalso; apply H; reflexivity]
            | split; [cbn; lia | intros H; try reflexivity; discriminate H]]).
Qed.

Lemma buildCommand_refusal_iff_dialog_witness :
  fst (fst (buildCommand Fixture.hostNone Fixture.defaults)) = []
  /\ snd (buildCommand Fixture.hostNone Fixture.defaults)
     = [missingDependency (qstr "stress-ng")]
  /\ snd (fst (buildCommand Fixture.hostNone Fixture.defaults)) = None.
Proof.
  destruct (buildCommand_refusal_iff_dialog Fixture.hostNone Fixture.defaults)
    as (_ & _ & Hnone).
  assert (Hcmd : fst (fst (buildCommand Fixture.hostNone Fixture.defaults)) = [])
    by reflexivity.
  refine (conj Hcmd (conj eq_refl (Hnone Hcmd))).
Defined.

(** X2. The program of a command that [buildCommand] returns is the
    executable of the kind the cascade of radio-button tests arrives at,
    and that is the kind whose name [testName] puts into the name of the log
    file, whether or not the buttons are exclusive. *)
Theorem buildCommand_follows_testName (h : Host) (w : Widgets) (exe : QString) :
  head (fst (fst (buildCommand h w))) = Some exe ->
  exe = Spec.executable (activeKind w)
  /\ testName w = kindName (activeKind w).
Proof.
  intros H. split; [|apply testName_activeKind].
  revert H. unfold buildCommand, activeKind.
  destruct (rbCpu w); [|destruct (rbRam w); [|destruct (rbGpu w);
    [|destruct (rbDisk w)]]];
    match goal with |- context [need h ?e] =>
      destruct (need_cases h e) as [-> | ->] end; cbn [negb fst snd];
    try (destruct (isEmpty (trimmed (netServer w))); cbn [fst snd app]);
    cbn [head]; intros H; try discriminate H; injection H as <-; reflexivity.
Qed.

Lemma buildCommand_follows_testName_witness :
  let w := Fixture.withServer (qstr "10.0.0.1") [] (Fixture.pick Network Fixture.defaults) in
  head (fst (fst (buildCommand Fixture.hostAll w))) = Some (qstr "iperf3")
  /\ qstr "iperf3" = Spec.executable (activeKind w)
  /\ testName w = qstr "net".
Proof.
  intros w.
  assert (H : head (fst (fst (buildCommand Fixture.hostAll w)))
              = Some (qstr "iperf3")) by reflexivity.
  destruct (buildCommand_follows_testName Fixture.hostAll w _ H) as (H1 & H2).
  refine (conj H (conj H1 H2)).
Defined.

(** X3. With the spin boxes within the ranges [buildUi] gives them, the
    clamps of [buildCommand] change nothing: the expected duration of a
    command is the value of the duration box of the kind in effect, and it
    lies between 5 and 86400 seconds. *)
Theorem buildCommand_duration_in_range (h : Host) (w : Widgets) (d : Z) :
  inRanges w ->
  snd (fst (buildCommand h w)) = Some d ->
  durationBox w (activeKind w) = Some d /\ 5 <= d <= 86400.
Proof.
  intros (Hcw & Hcd & Hrw & Hrd & Hdr). unfold buildCommand, activeKind.
  destruct (rbCpu w); [|destruct (rbRam w); [|destruct (rbGpu w);
    [|destruct (rbDisk w)]]];
    match goal with |- context [need h ?e] =>
      destruct (need_cases h e) as [-> | ->] end; cbn [negb fst snd];
    try (destruct (isEmpty (trimmed (netServer w))); cbn [fst snd]);
    intros H; try discriminate H; injection H as <-; cbn [durationBox];
    (split; [f_equal; lia | lia]).
Qed.

Lemma buildCommand_duration_in_range_witness :
  inRanges Fixture.defaults
  /\ snd (fst (buildCommand Fixture.hostAll Fixture.defaults)) = Some 300
  /\ durationBox Fixture.defaults (activeKind Fixture.defaults) = Some 300.
Proof.
  assert (Hr : inRanges Fixture.defaults) by (unfold inRanges; cbn; lia).
  assert (Hd : snd (fst (buildCommand Fixture.hostAll Fixture.defaults)) = Some 300)
    by reflexivity.
  refine (conj Hr (conj Hd _)).
  exact (proj1 (buildCommand_duration_in_range Fixture.hostAll Fixture.defaults
                  300 Hr Hd)).
Defined.

(** X4. When the executable of the selected kind is not found, pressing
    Start on a window without a child shows the missing-dependency dialog
    for that executable and does nothing else: no log file is opened, no
    child is started, no timer is armed, and the buttons, the progress bar
    and the output view stay as they are. *)
Theorem start_without_tool_starts_nothing (e : StartEnv) (w : Widgets)
  (m : MainWindow) (k : BenchmarkKind) :
  procState m = NotRunning ->
  Spec.selected k w ->
  fst (which (host e) (Spec.executable k)) = false ->
  startClicked e w m = showDialogs [missingDependency (Spec.executable k)] m
  /\ procState (startClicked e w m) = NotRunning
  /\ logFile (startClicked e w m) = logFile m
  /\ sent (startClicked e w m) = sent m
  /\ timers (startClicked e w m) = timers m.
Proof.
  intros Hp Hsel Htool.
  pose proof (buildCommand_missing_tool (host e) w k Hsel Htool) as Hcmd.
  rewrite (startClicked_no_command e w m None _ Hp Hcmd).
  repeat split. exact Hp.
Qed.

Lemma start_without_tool_starts_nothing_witness :
  let e := Fixture.env Fixture.hostNone true true in
  let w := Fixture.pick Disk Fixture.defaults in
  procState initial = NotRunning
  /\ Spec.selected Disk w
  /\ fst (which (host e) (Spec.executable Disk)) = false
  /\ startClicked e w initial = showDialogs [missingDependency (qstr "fio")] initial.
Proof.
  intros e w.
  assert (Hsel : Spec.selected Disk w) by apply selected_pick.
  assert (Htool : fst (which (host e) (Spec.executable Disk)) = false)
    by reflexivity.
  refine (conj eq_refl (conj Hsel (conj Htool _))).
  exact (proj1 (start_without_tool_starts_nothing e w initial Disk eq_refl
                  Hsel Htool)).
Defined.

(* ===================================================================== *)
(** ** The names of the log files *)
(* ===================================================================== *)

(** A check that holds on every number of a range holds on each of them. *)
Lemma range_check (P : Z -> bool) (lo len : Z) :
  forallb P (seqZ lo len) = true ->
  forall n, lo <= n < lo + len -> P n = true.
Proof.
  intros H n Hn. rewrite forallb_forall in H. apply H.
  apply list_elem_of_In, elem_of_seqZ. lia.
Qed.

(** A field of the given width holds exactly its digits. *)
Lemma padded_two n :
  0 <= n < 100 ->
  length (padded 2 n) = 2%nat /\ digitsValue 0 (padded 2 n) = Some n.
Proof.
  intros Hn.
  pose proof (range_check
    (fun n => bool_decide (length (padded 2 n) = 2%nat
                           /\ digitsValue 0 (padded 2 n) = Some n)) 0 100) as H.
  assert (Hb : bool_decide (length (padded 2 n) = 2%nat
                            /\ digitsValue 0 (padded 2 n) = Some n) = true)
    by (apply H; [vm_compute; reflexivity | lia]).
  apply bool_decide_eq_true in Hb. exact Hb.
Qed.

Lemma padded_four n :
  0 <= n < 10000 ->
  length (padded 4 n) = 4%nat /\ digitsValue 0 (padded 4 n) = Some n.
Proof.
  intros Hn.
  pose proof (range_check
    (fun n => bool_decide (length (padded 4 n) = 4%nat
                           /\ digitsValue 0 (padded 4 n) = Some n)) 0 10000) as H.
  assert (Hb : bool_decide (length (padded 4 n) = 4%nat
                            /\ digitsValue 0 (padded 4 n) = Some n) = true)
    by (apply H; [vm_compute; reflexivity | lia]).
  apply bool_decide_eq_true in Hb. exact Hb.
Qed.

Lemma padded_two_inj a b :
  0 <= a < 100 -> 0 <= b < 100 -> padded 2 a = padded 2 b -> a = b.
Proof.
  intros Ha Hb H. destruct (padded_two a Ha) as (_ & Hda).
  destruct (padded_two b Hb) as (_ & Hdb). congruence.
Qed.

Lemma padded_four_inj a b :
  0 <= a < 10000 -> 0 <= b < 10000 -> padded 4 a = padded 4 b -> a = b.
Proof.
  intros Ha Hb H. destruct (padded_four a Ha) as (_ & Hda).
  destruct (padded_four b Hb) as (_ & Hdb). congruence.
Qed.

(** Two fields of the same width in front of two texts. *)
Lemma field_split (f1 f2 r1 r2 : QString) (n : nat) :
  length f1 = n -> length f2 = n -> f1 ++ r1 = f2 ++ r2 -> f1 = f2 /\ r1 = r2.
Proof. intros H1 H2 H. apply app_inj_1; [congruence | exact H]. Qed.

Lemma fileStamp_length t : wellFormedTime t -> length (fileStamp t) = 19%nat.
Proof.
  intros (Hy & Hmo & Hd & Hh & Hmi & Hs). unfold fileStamp.
  rewrite !length_app.
  rewrite (proj1 (padded_four (year t) ltac:(lia))).
  rewrite (proj1 (padded_two (month t) ltac:(lia))).
  rewrite (proj1 (padded_two (day t) ltac:(lia))).
  rewrite (proj1 (padded_two (hour t) ltac:(lia))).
  rewrite (proj1 (padded_two (minute t) ltac:(lia))).
  rewrite (proj1 (padded_two (second t) ltac:(lia))).
  reflexivity.
Qed.

Lemma fileStamp_inj t1 t2 :
  wellFormedTime t1 -> wellFormedTime t2 ->
  fileStamp t1 = fileStamp t2 -> t1 = t2.
Proof.
  intros (Hy1 & Hmo1 & Hd1 & Hh1 & Hmi1 & Hs1) (Hy2 & Hmo2 & Hd2 & Hh2 & Hmi2 & Hs2).
  unfold fileStamp. intros H.
  apply (field_split _ _ _ _ 4) in H as [Ey H];
    [|apply padded_four; lia|apply padded_four; lia].
  apply app_inv_head in H.
  apply (field_split _ _ _ _ 2) in H as [Emo H];
    [|apply padded_two; lia|apply padded_two; lia].
  apply app_inv_head in H.
  apply (field_split _ _ _ _ 2) in H as [Ed H];
    [|apply padded_two; lia|apply padded_two; lia].
  apply app_inv_head in H.
  apply (field_split _ _ _ _ 2) in H as [Eh H];
    [|apply padded_two; lia|apply padded_two; lia].
  apply app_inv_head in H.
  apply (field_split _ _ _ _ 2) in H as [Emi H];
    [|apply padded_two; lia|apply padded_two; lia].
  apply app_inv_head in H.
  apply padded_four_inj in Ey; [|lia|lia].
  apply padded_two_inj in Emo, Ed, Eh, Emi, H; try lia.
  destruct t1, t2; cbn in *; congruence.
Qed.

Lemma kindName_first k rest :
  head (kindName k ++ rest)
  = Some (match k with
          | CPU => 99 | Memory => 114 | GPU => 103 | Disk => 100
          | Network => 110
          end)%N.
Proof. destruct k; reflexivity. Qed.

Lemma kindName_inj k1 k2 r1 r2 :
  kindName k1 ++ r1 = kindName k2 ++ r2 -> k1 = k2.
Proof.
  intros H. apply (f_equal head) in H. rewrite !kindName_first in H.
  destruct k1, k2; try reflexivity; discriminate H.
Qed.

(** X5. For one user and clock readings with a year of four digits, two
    presses of Start give their logs the same file name exactly when they
    run the same kind of test and the clock shows the same second. So runs
    in different seconds, or of different kinds, never share a log file
    name, while a second run of the same kind within the second is given
    the name of the first. *)
Theorem logFileName_same_iff (e1 e2 : StartEnv) (w1 w2 : Widgets) :
  homeLocation e1 = homeLocation e2 ->
  wellFormedTime (nameTime e1) -> wellFormedTime (nameTime e2) ->
  (logFileName e1 w1 = logFileName e2 w2
   <-> activeKind w1 = activeKind w2 /\ nameTime e1 = nameTime e2).
Proof.
  intros Hhome Hwf1 Hwf2. unfold logFileName, logDirPath.
  rewrite !testName_activeKind, Hhome. split.
  - intros H. rewrite <- !app_assoc in H. do 3 apply app_inv_head in H.
    pose proof (kindName_inj _ _ _ _ H) as Hk. split; [exact Hk|].
    rewrite Hk in H. do 2 apply app_inv_head in H.
    apply app_inv_tail in H. apply fileStamp_inj; assumption.
  - intros [-> ->]. reflexivity.
Qed.

Lemma logFileName_same_iff_witness :
  let e := Fixture.env Fixture.hostAll true true in
  homeLocation e = homeLocation e
  /\ wellFormedTime (nameTime e)
  /\ logFileName e Fixture.defaults = logFileName e (Fixture.pick CPU Fixture.defaults)
  /\ logFileName e Fixture.defaults
     = qstr "/home/user/HardwareStressTest/logs/cpu_2025-09-06_12-00-00.log".
Proof.
  intros e.
  assert (Hwf : wellFormedTime (nameTime e)) by (unfold wellFormedTime; cbn; lia).
  refine (conj eq_refl (conj Hwf (conj _ eq_refl))).
  apply (logFileName_same_iff e e Fixture.defaults
           (Fixture.pick CPU Fixture.defaults) eq_refl Hwf Hwf).
  split; reflexivity.
Defined.

(* ===================================================================== *)
(** ** Further properties of the metrics sampler *)
(* ===================================================================== *)

Lemma cpuSamples_disabled reads :
  cpuSamples reads (Some None) = (repeat 0%Q (length reads), Some None).
Proof.
  induction reads as [|r reads IH]; [reflexivity|].
  cbn [cpuSamples]. assert (H : cpuPercent r (Some None) = (0%Q, Some None))
    by (destruct r; reflexivity).
  rewrite H, IH. reflexivity.
Qed.

(** X6. When [/proc/stat] cannot be read, or its first line is not the
    aggregate line, at the very first call, [prev] is initialised empty and
    is never assigned again: every later call returns 0, whatever the
    counters it reads. *)
Theorem cpuPercent_failed_first_read_sticks (reads : list (option CpuSnapshot)) :
  cpuSamples (None :: reads) None
  = (repeat 0%Q (S (length reads)), Some None).
Proof.
  cbn [cpuSamples]. change (cpuPercent None None) with (0%Q, Some (@None CpuSnapshot)).
  cbv beta iota. rewrite cpuSamples_disabled. reflexivity.
Qed.

Lemma cpuSamples_unreadable k p :
  cpuSamples (repeat None k) (Some (Some p))
  = (repeat 0%Q k, Some (Some p)).
Proof.
  induction k as [|k IH]; [reflexivity|].
  cbn [repeat cpuSamples]. change (cpuPercent None (Some (Some p)))
    with (0%Q, Some (Some p)). cbv beta iota. rewrite IH. reflexivity.
Qed.

Lemma cpuSamples_app r1 r2 st :
  cpuSamples (r1 ++ r2) st
  = (fst (cpuSamples r1 st) ++ fst (cpuSamples r2 (snd (cpuSamples r1 st))),
     snd (cpuSamples r2 (snd (cpuSamples r1 st)))).
Proof.
  revert st. induction r1 as [|r r1 IH]; intros st.
  - cbn. destruct (cpuSamples r2 st); reflexivity.
  - cbn [app cpuSamples]. destruct (cpuPercent r st) as [q st1].
    rewrite IH. destruct (cpuSamples r1 st1) as [qs st2]. cbn [fst snd].
    reflexivity.
Qed.

(** X7. A call that cannot read the counters returns 0 and leaves the
    stored counters alone; a call that reads them stores them. So after any
    number of unreadable calls the next readable call reports the
    utilisation since the last readable one, and its counters become the
    reference of the call after it. *)
Theorem cpuPercent_bridges_unreadable_calls (p n : CpuSnapshot) (k : nat) :
  cpuSamples (repeat None k ++ [Some n]) (Some (Some p))
  = (repeat 0%Q k ++ [fst (cpuPercent (Some n) (Some (Some p)))],
     Some (Some n)).
Proof.
  rewrite cpuSamples_app, cpuSamples_unreadable. reflexivity.
Qed.







(* ===================================================================== *)
(** ** Properties of the dashboard *)
(* ===================================================================== *)

Lemma clamp01_range v : (0 <= clamp01 v /\ clamp01 v <= 1)%Q.
Proof.
  unfold clamp01. destruct (Qle_bool 0 v) eqn:H0; cbn [negb].
  - destruct (Qle_bool v 1) eqn:H1; cbn [negb].
    + apply Qle_bool_iff in H0, H1. split; assumption.
    + split; discriminate.
  - split; discriminate.
Qed.


Lemma truncate_range (q : Q) (k : Z) :
  (0 <= q /\ q <= inject_Z k)%Q -> 0 <= truncate q <= k.
Proof.
  destruct q as [n d]. unfold Qle, inject_Z, truncate. cbn. intros [H0 H1].
  rewrite Z.quot_div_nonneg by lia. split.
  - apply Z.div_pos; lia.
  - apply Z.div_le_upper_bound; lia.
Qed.

Lemma roundHalfAway_range (q : Q) (k : Z) :
  (0 <= q /\ q <= inject_Z k)%Q -> 0 <= roundHalfAway q <= k.
Proof.
  intros [H0 H1]. unfold roundHalfAway.
  pose proof H0 as Hb. apply Qle_bool_iff in Hb. rewrite Hb.
  destruct q as [n d]. unfold Qle, inject_Z, truncate, Qplus in *. cbn in *.
  rewrite Z.quot_div_nonneg by lia. split.
  - apply Z.div_pos; lia.
  - apply Z.lt_succ_r, Z.div_lt_upper_bound; lia.
Qed.

Lemma setValue_in_bounds v cap g : gaugeInBounds (setValue v cap g).
Proof.
  unfold gaugeInBounds, arcExtent, centrePercent, setValue. cbn [m_value].
  pose proof (clamp01_range v) as [H0 H1]. split; [split; assumption|].
  split.
  - apply truncate_range. destruct (clamp01 v) as [n d].
    unfold Qle, Qmult, inject_Z in *. cbn in *. lia.
  - apply roundHalfAway_range. destruct (clamp01 v) as [n d].
    unfold Qle, Qmult, inject_Z in *. cbn in *. lia.
Qed.

(** X10. Whatever the monitor timer reads, be the counters ill-formed, going
    backwards or unreadable, [updateDashboard] leaves every gauge with a
    value within [0,1], and [paintEvent] draws an arc of 0 to 280 degrees
    and a number of 0 to 100 in its centre. *)
Theorem updateDashboard_gauges_in_bounds (formatF1 : Q -> QString)
  (k : Counters) (d : Dashboard) :
  gaugeInBounds (gCpu (updateDashboard formatF1 k d))
  /\ gaugeInBounds (gMem (updateDashboard formatF1 k d))
  /\ gaugeInBounds (gDsk (updateDashboard formatF1 k d)).
Proof.
  unfold updateDashboard. destruct (cpuPercent (statRead k) (cpuPrev d)) as [c st].
  cbn [gCpu gMem gDsk]. repeat split; apply setValue_in_bounds.
Qed.




(* ===================================================================== *)
(** ** Further properties of the run supervisor *)
(* ===================================================================== *)



(** X13. After [stopClicked] with a child the status bar reads
    [Stopping...] in either outcome of the wait: when the child exits within
    the window, [procFinished] has set the status to [Ready.] from inside
    the wait and the statement after the wait overwrites it, so the window
    is idle, with Start enabled, under a status that still says
    stopping. *)
Theorem stopClicked_status (c : Codec) (wait : Z -> WaitResult) (m : MainWindow) :
  procState m <> NotRunning ->
  let m' := stopClicked c wait m in
  status (ui m') = qstr "Stopping" ++ ellipsis
  /\ match wait 3000 with
     | ExitedInTime _ _ =>
       Idle m' /\ btnStop (ui m') = false /\ eta (ui m') = qstr "ETA: --:--"
       /\ status (ui m') <> qstr "Ready."
     | TimedOut _ => procState m' = procState m
     end.
Proof.
  intros Hrun. unfold stopClicked. rewrite (running_test _ Hrun).
  change stopWindow with 3000. cbv zeta. split; [reflexivity|].
  set (m1 := send SIGTERM (onOutput _ m)).
  destruct (wait 3000) as [out rc|out].
  - split; [apply (procFinished_Idle rc)|]. split; [reflexivity|].
    split; [reflexivity|]. discriminate.
  - destruct (readAll_frame c out m1) as (H1 & _). exact H1.
Qed.

Lemma stopClicked_status_witness :
  let m := startClicked (Fixture.env Fixture.hostAll true true)
             Fixture.defaults initial in
  let m' := stopClicked Utf8.codec (fun _ => ExitedInTime [] 15) m in
  procState m <> NotRunning
  /\ status (ui m') = qstr "Stopping" ++ ellipsis
  /\ Idle m'.
Proof.
  intros m m'.
  assert (H : procState m <> NotRunning) by (vm_compute; discriminate).
  destruct (stopClicked_status Utf8.codec (fun _ => ExitedInTime [] 15) m H)
    as (Hs & Hi & _).
  exact (conj H (conj Hs Hi)).
Defined.

Lemma procFinished_Consistent rc m : Consistent (procFinished rc m).
Proof.
  unfold Consistent, procFinished. cbn [ui btnStart btnStop procState logFile].
  split; [reflexivity|]. split; [intros H; contradiction|].
  destruct (isOpen (logFile m)) eqn:Ho; cbn [isOpen]; [discriminate|].
  rewrite Ho. discriminate.
Qed.

Lemma frame_Consistent m m' :
  procState m' = procState m -> isOpen (logFile m') = isOpen (logFile m) ->
  btnStart (ui m') = btnStart (ui m) -> btnStop (ui m') = btnStop (ui m) ->
  Consistent m -> Consistent m'.
Proof. unfold Consistent. intros -> -> -> ->. exact id. Qed.

Lemma step_Consistent c m ev : Consistent m -> Consistent (step c m ev).
Proof.
  intros Hc. pose proof Hc as (Hbtn & Hproc & Hlog).
  destruct ev as [e w|wait| |bytes|rc|now]; cbn [step].
  - destruct (btnStart (ui m)) eqn:Hb; [|exact Hc].
    assert (Hclosed : isOpen (logFile m) = false).
    { destruct (isOpen (logFile m)); [|reflexivity]. discriminate (Hlog eq_refl). }
    assert (Hp : procState m = NotRunning).
    { destruct (decide (procState m = NotRunning)) as [|Hn]; [assumption|].
      rewrite (Hproc Hn) in Hclosed. discriminate. }
    unfold startClicked. rewrite (not_running_test _ Hp).
    destruct (buildCommand (host e) w) as [[cmd exp] dlg].
    destruct cmd as [|c0 cmd]; cbn [isEmpty].
    + exact Hc.
    + destruct (logOpens e (logFileName e w)).
      * cbn [negb]. unfold Consistent. cbn.
        split; [reflexivity|]. split; reflexivity.
      * cbn [negb]. unfold Consistent. cbn. rewrite Hbtn, Hb.
        split; [reflexivity|]. split; [intros H; contradiction | discriminate].
  - destruct (btnStop (ui m)); [|exact Hc].
    unfold stopClicked.
    destruct (negb (bool_decide (procState m = NotRunning))); [|exact Hc].
    set (m1 := send SIGTERM (onOutput _ m)).
    destruct (wait stopWindow) as [out rc|out].
    + apply (procFinished_Consistent rc).
    + destruct (readAll_frame c out m1) as (G1 & _ & G3 & _ & G5 & G6 & _).
      apply (frame_Consistent m); [exact G1 | exact G3 | exact G5 | exact G6 | exact Hc].
  - case_bool_decide as Hst; [|exact Hc].
    unfold Consistent. cbn [setProcState procState logFile ui].
    split; [exact Hbtn|]. split; [|exact Hlog].
    intros _. apply Hproc. rewrite Hst. discriminate.
  - destruct (readOutput_frame c bytes m) as (G1 & _ & G3 & _ & G5 & G6 & _).
    apply (frame_Consistent m); assumption.
  - case_bool_decide; [exact Hc | apply procFinished_Consistent].
  - destruct (timers m) as [|k]; [exact Hc|].
    destruct (tickProgress_frame now (setTimers k m)) as (G1 & _ & G3 & G4 & G5 & _).
    apply (frame_Consistent m); [exact G1 | rewrite G3; reflexivity
                                | exact G4 | exact G5 | exact Hc].
Qed.

(** X14. Whatever events the window has handled since it was built: the
    Stop button is enabled exactly when the Start button is disabled; while
    a child exists the log file is open, so no output that is read is kept
    from the log; and while the log file is open the Start button is
    disabled, so no press of Start reopens the file of a run under way. *)
Theorem window_stays_consistent (c : Codec) (evs : list Event) :
  Consistent (run c initial evs).
Proof.
  assert (G : forall m, Consistent m -> Consistent (run c m evs)).
  { induction evs as [|ev evs IH]; intros m H; [exact H|].
    cbn [run fold_left]. apply IH, step_Consistent, H. }
  apply G. unfold Consistent. cbn.
  split; [reflexivity|]. split; [intros H; contradiction | discriminate].
Qed.

(** X15. Closing the window while a run is under way asks first. Any
    answer but Yes ignores the close event and leaves the window and the
    child as they are. With Yes the graceful signal is sent and the wait
    lasts 1500 ms: when the child exits within it, the close is accepted
    with the log complete, footer included, and closed; when it does not,
    the kill signal follows and the close is accepted with the log still
    open and without a footer. *)
Theorem closeEvent_during_run (c : Codec) (wait : Z -> WaitResult)
  (hdr : list QString) (chunks : list (list Byte.byte)) (m : MainWindow) :
  RunInv c hdr chunks m ->
  closeEvent c false wait m
  = {| afterClose := m; asked := true; accepted := false |}
  /\ let r := closeEvent c true wait m in
     asked r = true /\ accepted r = true
     /\ match wait 1500 with
        | ExitedInTime out rc =>
          sent (afterClose r) = sent m ++ [SIGTERM]
          /\ Idle (afterClose r)
          /\ written (logFile (afterClose r))
             = hdr ++ List.map (fromLocal8Bit c) (chunks ++ out) ++ logFooter rc
        | TimedOut out =>
          sent (afterClose r) = sent m ++ [SIGTERM; SIGKILL]
          /\ isOpen (logFile (afterClose r)) = true
          /\ written (logFile (afterClose r))
             = hdr ++ List.map (fromLocal8Bit c) (chunks ++ out)
        end.
Proof.
  intros (Hp & Ho & Hw & Hb & Hs). unfold closeEvent.
  rewrite (running_test _ Hp). cbn [negb]. split; [reflexivity|].
  change closeWindow with 1500. cbv zeta.
  set (m1 := send SIGTERM m).
  destruct (readAll_frame c) with (out := match wait 1500 with
                                          | ExitedInTime o _ => o
                                          | TimedOut o => o
                                          end) (m := m1)
    as (_ & G2 & G3 & _ & _ & _ & _ & _ & G9).
  change (isOpen (logFile m1)) with (isOpen (logFile m)) in G3, G9.
  change (written (logFile m1)) with (written (logFile m)) in G9.
  change (sent m1) with (sent m ++ [SIGTERM]) in G2.
  rewrite Ho in G3, G9. rewrite Hw in G9.
  destruct (wait 1500) as [out rc|out]; cbn [asked accepted afterClose].
  - split; [reflexivity|]. split; [reflexivity|].
    split; [exact G2|]. split; [apply procFinished_Idle|].
    cbn [logFile procFinished]. rewrite G3. cbn [written].
    rewrite G9, List.map_app, <- !app_assoc. reflexivity.
  - split; [reflexivity|]. split; [reflexivity|].
    split; [|split].
    + cbn [sent send]. rewrite G2, <- app_assoc. reflexivity.
    + exact G3.
    + cbn [logFile send]. rewrite G9, List.map_app, <- app_assoc. reflexivity.
Qed.

Lemma closeEvent_during_run_witness :
  let e := Fixture.env Fixture.hostAll true true in
  let m := step Utf8.codec initial (ClickStart e Fixture.defaults) in
  let cmd := [qstr "stress-ng"; qstr "--cpu"; qstr "8"; qstr "--timeout";
              qstr "300s"] in
  let r := closeEvent Utf8.codec true (fun _ => ExitedInTime [] 15) m in
  RunInv Utf8.codec (logHeader e cmd) [] m
  /\ accepted r = true
  /\ written (logFile (afterClose r)) = logHeader e cmd ++ logFooter 15.
Proof.
  intros e m cmd r.
  assert (H : RunInv Utf8.codec (logHeader e cmd) [] m).
  { refine (start_opens_run Utf8.codec e Fixture.defaults initial cmd (Some 300) []
              eq_refl eq_refl eq_refl _ eq_refl eq_refl). discriminate. }
  destruct (closeEvent_during_run Utf8.codec (fun _ => ExitedInTime [] 15)
              _ _ m H) as (_ & _ & Ha & _ & _ & Hw).
  exact (conj H (conj Ha Hw)).
Defined.

(** Without a child the window closes at once. *)
Lemma closeEvent_idle c yes wait m :
  procState m = NotRunning ->
  closeEvent c yes wait m
  = {| afterClose := m; asked := false; accepted := true |}.
Proof. intros H. unfold closeEvent. rewrite (not_running_test _ H). reflexivity. Qed.

Lemma selected_activeKind k w : Spec.selected k w -> activeKind w = k.
Proof.
  intros Hsel. destruct (selected_buttons k w Hsel) as (Hc & Hr & Hg & Hd & _).
  unfold activeKind. rewrite Hc, Hr, Hg, Hd. destruct k; reflexivity.
Qed.

Lemma buildCommand_found h w :
  fst (which h (Spec.executable (activeKind w))) = true ->
  ~ In (missingDependency (Spec.executable (activeKind w)))
       (snd (buildCommand h w)).
Proof.
  unfold buildCommand, activeKind.
  destruct (rbCpu w); [|destruct (rbRam w); [|destruct (rbGpu w);
    [|destruct (rbDisk w)]]];
    cbn [Spec.executable]; intros Htool; rewrite (need_present _ _ Htool);
    cbn [negb]; try (destruct (isEmpty (trimmed (netServer w))));
    cbn [snd app In]; unfold inputError, missingDependency;
    intuition discriminate.
Qed.

(** X16. The dependency report and the command builder agree. The report
    has a line for the executable of every kind; when [which] does not find
    the executable, that line says NOT FOUND with the install hint and
    [buildCommand] for the kind refuses with the missing-dependency dialog;
    when [which] finds it, the line shows the path found and [buildCommand]
    shows no missing-dependency dialog. *)
Theorem dependency_report_agrees (h : Host) (pretty : QString) (w : Widgets)
  (k : BenchmarkKind) :
  Spec.selected k w ->
  let exe := Spec.executable k in
  In (dependencyLine h exe) (dependencyLines h pretty)
  /\ if fst (which h exe)
     then dependencyLine h exe = qstr " - " ++ exe ++ qstr ": " ++ snd (which h exe)
          /\ snd (which h exe) <> []
          /\ ~ In (missingDependency exe) (snd (buildCommand h w))
     else dependencyLine h exe = qstr " - " ++ exe ++ qstr ": " ++ notFound exe
          /\ buildCommand h w = (noCommand, [missingDependency exe]).
Proof.
  intros Hsel exe. split.
  - unfold dependencyLines. apply in_or_app. right. apply in_or_app. left.
    apply in_map. subst exe. destruct k; cbn; auto.
  - unfold dependencyLine. destruct (which h exe) as [ok p] eqn:Hw. cbn [fst snd].
    destruct ok.
    + split; [reflexivity|]. split.
      * unfold which in Hw. injection Hw as Hok Hpath. rewrite <- Hpath.
        destruct (trimmed _); [discriminate Hok | discriminate].
      * assert (Htool : fst (which h exe) = true) by (rewrite Hw; reflexivity).
        subst exe. rewrite <- (selected_activeKind k w Hsel) in Htool |- *.
        apply buildCommand_found, Htool.
    + split; [reflexivity|].
      apply buildCommand_missing_tool; [exact Hsel | fold exe; rewrite Hw; reflexivity].
Qed.

Lemma dependency_report_agrees_witness :
  let w := Fixture.pick GPU Fixture.defaults in
  Spec.selected GPU w
  /\ In (qstr " - glmark2: NOT FOUND (sudo apt install glmark2)")
       (dependencyLines Fixture.hostNone (qstr "Ubuntu"))
  /\ buildCommand Fixture.hostNone w
     = (noCommand, [missingDependency (qstr "glmark2")]).
Proof.
  intros w.
  assert (Hsel : Spec.selected GPU w) by apply selected_pick.
  destruct (dependency_report_agrees Fixture.hostNone (qstr "Ubuntu") w GPU Hsel)
    as (Hin & H).
  change (fst (which Fixture.hostNone (Spec.executable GPU))) with false in H.
  destruct H as (Hline & Hcmd).
  refine (conj Hsel (conj _ Hcmd)).
  rewrite Hline in Hin. exact Hin.
Defined.






(* ===================================================================== *)
(** ** The table of [memPercent] *)
(* ===================================================================== *)



Lemma memLine_keys (map : gmap QString Z) line :
  map_Forall (fun key v => ~ In 58%N key /\ inU64 v) map ->
  map_Forall (fun key v => ~ In 58%N key /\ inU64 v) (memLine map line).
Proof.
  intros H. unfold memLine.
  destruct (splitSpaces line) as [|key [|val rest]]; try exact H.
  destruct (toULongLong val) as [kB|] eqn:Hv; [|exact H].
  apply map_Forall_insert_2; [|exact H]. split.
  - unfold remove. rewrite filter_In. intros [_ Hf].
    rewrite N.eqb_refl in Hf. discriminate Hf.
  - apply toULongLong_range in Hv. exact Hv.
Qed.

(** X19. Whatever the lines of [/proc/meminfo], no key of the table holds a
    colon, so a name is looked up as it stands before the colon, and every
    value lies within 64 bits; in particular the total and the available
    amount that [memPercent] computes with do. *)
Theorem memTable_keys_and_values (lines : list QString) (key : QString) (v : Z) :
  memTable lines !! key = Some v ->
  ~ In 58%N key /\ 0 <= v < 2 ^ 64.
Proof.
  unfold memTable.
  assert (G : forall (map : gmap QString Z),
             map_Forall (fun key v => ~ In 58%N key /\ inU64 v) map ->
             map_Forall (fun key v => ~ In 58%N key /\ inU64 v)
               (fold_left memLine lines map)).
  { induction lines as [|l lines IH]; intros map H; [exact H|].
    cbn. apply IH, memLine_keys, H. }
  intros Hk. exact (G ∅ (map_Forall_empty _) key v Hk).
Qed.

Lemma memTable_keys_and_values_witness :
  let lines := [qstr "MemTotal:       16777216 kB";
                qstr "Mem:Avail:able: 4194304 kB"] in
  memTable lines !! qstr "MemAvailable" = Some 4194304
  /\ ~ In 58%N (qstr "MemAvailable").
Proof.
  intros lines.
  assert (H : memTable lines !! qstr "MemAvailable" = Some 4194304)
    by (vm_compute; reflexivity).
  exact (conj H (proj1 (memTable_keys_and_values lines _ _ H))).
Defined.

(* ===================================================================== *)
(** ** Starts and runs in sequence *)
(* ===================================================================== *)

Lemma run_app c m evs1 evs2 :
  run c m (evs1 ++ evs2) = run c (run c m evs1) evs2.
Proof. unfold run. apply fold_left_app. Qed.

(** A whole run from an idle window: the log at its end, and idle again. *)
Lemma complete_run c e w m0 cmd exp dlg evs fin rc :
  Idle m0 ->
  buildCommand (host e) w = ((cmd, exp), dlg) ->
  cmd <> [] ->
  logOpens e (logFileName e w) = true ->
  spawns e cmd = true ->
  Forall keepsRunning evs ->
  exitsWith rc fin ->
  let m := run c m0 (ClickStart e w :: evs ++ [fin]) in
  written (logFile m)
  = logHeader e cmd
    ++ List.map (fromLocal8Bit c) (concat (List.map arrivals (evs ++ [fin])))
    ++ logFooter rc
  /\ fileName (logFile m) = logFileName e w
  /\ Idle m.
Proof.
  intros (Hp & _ & Hb) Hcmd Hne Hopen Hspawn Hall Hfin m.
  pose proof (start_opens_run c e w m0 cmd exp dlg Hp Hb Hcmd Hne Hopen Hspawn)
    as Hinv.
  assert (Hname : fileName (logFile (step c m0 (ClickStart e w))) = logFileName e w).
  { unfold step, startClicked. rewrite Hb, (not_running_test _ Hp), Hcmd.
    destruct cmd as [|c0 cmd]; [congruence|]. cbn [isEmpty].
    rewrite Hopen. reflexivity. }
  assert (Hkeep : forall evs' hdr chunks m1,
             RunInv c hdr chunks m1 -> Forall keepsRunning evs' ->
             fileName (logFile (run c m1 evs')) = fileName (logFile m1)).
  { induction evs' as [|ev evs' IH]; intros hdr chunks m1 H1 H2; [reflexivity|].
    inversion H2 as [|? ? Hev Hrest]; subst. cbn [run fold_left].
    fold (run c (step c m1 ev) evs').
    rewrite (IH _ _ _ (step_keeps_run c hdr chunks m1 ev H1 Hev) Hrest).
    destruct H1 as (Hp1 & _ & _ & Hb1 & Hs1).
    destruct ev as [e' w'|wait| |bytes|rc'|now]; cbn [step].
    - rewrite Hb1. reflexivity.
    - rewrite Hs1. unfold stopClicked. rewrite (running_test _ Hp1).
      cbn in Hev. destruct (wait stopWindow) as [out rc'|out]; [contradiction|].
      set (m2 := send SIGTERM (onOutput _ m1)).
      destruct (readAll_frame c out m2) as (_ & _ & _ & G4 & _). exact G4.
    - case_bool_decide; reflexivity.
    - apply (readOutput_frame c bytes m1).
    - contradiction.
    - destruct (timers m1) as [|k]; [reflexivity|].
      destruct (tickProgress_frame now (setTimers k m1)) as (_ & _ & G3 & _).
      rewrite G3. reflexivity. }
  pose proof (run_keeps_run c _ evs _ _ Hinv Hall) as Hinv'. cbn [app] in Hinv'.
  pose proof (exit_closes_log c _ _ _ fin rc Hinv' Hfin) as (Hw & Hidle).
  assert (Hm : m = step c (run c (step c m0 (ClickStart e w)) evs) fin).
  { subst m. unfold run. cbn [fold_left]. rewrite fold_left_app. reflexivity. }
  rewrite Hm, List.map_app, concat_app. cbn [List.map concat]. rewrite app_nil_r.
  split; [exact Hw|]. split; [|exact Hidle].
  rewrite <- Hname, <- (Hkeep evs _ _ _ Hinv Hall).
  destruct Hinv' as (Hp' & _ & _ & _ & Hs').
  clear Hm Hw Hidle. generalize dependent (run c (step c m0 (ClickStart e w)) evs).
  intros m1 Hp' Hs'.
  destruct fin as [e' w'|wait| |bytes|rc'|now]; cbn in Hfin; try contradiction;
    cbn [step].
  - rewrite Hs'. unfold stopClicked. rewrite (running_test _ Hp').
    destruct (wait stopWindow) as [out rc'|out]; [|contradiction].
    set (m2 := send SIGTERM (onOutput _ _)).
    destruct (readAll_frame c out m2) as (_ & _ & G3 & G4 & _).
    cbn [logFile showMessage withUi procFinished].
    destruct (isOpen (logFile (readAll c out m2))); cbn [fileName]; exact G4.
  - rewrite bool_decide_eq_false_2 by exact Hp'.
    cbn [logFile procFinished].
    destruct (isOpen (logFile _)); reflexivity.
Qed.

(** X20. Runs do not leak into each other: after two runs in sequence, the
    second started once the first has exited, the log file bears the name
    given at the second start and holds the header, the output and the
    footer of the second run only, and the window is idle again. *)
Theorem consecutive_runs (c : Codec) (m0 : MainWindow)
  (e1 e2 : StartEnv) (w1 w2 : Widgets) (cmd1 cmd2 : list QString)
  (exp1 exp2 : option Z) (dlg1 dlg2 : list Dialog)
  (evs1 evs2 : list Event) (fin1 fin2 : Event) (rc1 rc2 : Z) :
  Idle m0 ->
  buildCommand (host e1) w1 = ((cmd1, exp1), dlg1) -> cmd1 <> [] ->
  logOpens e1 (logFileName e1 w1) = true -> spawns e1 cmd1 = true ->
  Forall keepsRunning evs1 -> exitsWith rc1 fin1 ->
  buildCommand (host e2) w2 = ((cmd2, exp2), dlg2) -> cmd2 <> [] ->
  logOpens e2 (logFileName e2 w2) = true -> spawns e2 cmd2 = true ->
  Forall keepsRunning evs2 -> exitsWith rc2 fin2 ->
  let m := run c m0 ((ClickStart e1 w1 :: evs1 ++ [fin1])
                     ++ (ClickStart e2 w2 :: evs2 ++ [fin2])) in
  written (logFile m)
  = logHeader e2 cmd2
    ++ List.map (fromLocal8Bit c) (concat (List.map arrivals (evs2 ++ [fin2])))
    ++ logFooter rc2
  /\ fileName (logFile m) = logFileName e2 w2
  /\ Idle m.
Proof.
  intros Hidle Hc1 Hn1 Ho1 Hs1 Hk1 Hx1 Hc2 Hn2 Ho2 Hs2 Hk2 Hx2 m.
  subst m. rewrite run_app.
  destruct (complete_run c e1 w1 m0 cmd1 exp1 dlg1 evs1 fin1 rc1
              Hidle Hc1 Hn1 Ho1 Hs1 Hk1 Hx1) as (_ & _ & Hidle1).
  exact (complete_run c e2 w2 _ cmd2 exp2 dlg2 evs2 fin2 rc2
           Hidle1 Hc2 Hn2 Ho2 Hs2 Hk2 Hx2).
Qed.

Lemma consecutive_runs_witness :
  let e := Fixture.env Fixture.hostAll true true in
  let w1 := Fixture.defaults in
  let w2 := Fixture.pick GPU Fixture.defaults in
  let cmd1 := [qstr "stress-ng"; qstr "--cpu"; qstr "8"; qstr "--timeout";
               qstr "300s"] in
  let cmd2 := [qstr "glmark2"] in
  let evs1 := [ProcStarted; ReadyRead [Byte.x61]] in
  let evs2 := [ReadyRead [Byte.x62]] in
  let m := run Utf8.codec initial
             ((ClickStart e w1 :: evs1 ++ [ProcFinished 0])
              ++ (ClickStart e w2 :: evs2 ++ [ProcFinished 1])) in
  Idle initial
  /\ buildCommand (host e) w1 = ((cmd1, Some 300), []) /\ cmd1 <> []
  /\ logOpens e (logFileName e w1) = true /\ spawns e cmd1 = true
  /\ Forall keepsRunning evs1 /\ exitsWith 0 (ProcFinished 0)
  /\ buildCommand (host e) w2 = ((cmd2, None), []) /\ cmd2 <> []
  /\ logOpens e (logFileName e w2) = true /\ spawns e cmd2 = true
  /\ Forall keepsRunning evs2 /\ exitsWith 1 (ProcFinished 1)
  /\ written (logFile m) = logHeader e cmd2 ++ [qstr "b"] ++ logFooter 1
  /\ fileName (logFile m)
     = qstr "/home/user/HardwareStressTest/logs/gpu_2025-09-06_12-00-00.log".
Proof.
  intros e w1 w2 cmd1 cmd2 evs1 evs2 m.
  assert (H0 : Idle initial) by (repeat split).
  assert (H1 : buildCommand (host e) w1 = ((cmd1, Some 300), [])) by reflexivity.
  assert (H2 : cmd1 <> []) by discriminate.
  assert (H3 : logOpens e (logFileName e w1) = true) by reflexivity.
  assert (H4 : spawns e cmd1 = true) by reflexivity.
  assert (H5 : Forall keepsRunning evs1) by (repeat constructor).
  assert (H6 : exitsWith 0 (ProcFinished 0)) by reflexivity.
  assert (G1 : buildCommand (host e) w2 = ((cmd2, None), [])) by reflexivity.
  assert (G2 : cmd2 <> []) by discriminate.
  assert (G3 : logOpens e (logFileName e w2) = true) by reflexivity.
  assert (G4 : spawns e cmd2 = true) by reflexivity.
  assert (G5 : Forall keepsRunning evs2) by (repeat constructor).
  assert (G6 : exitsWith 1 (ProcFinished 1)) by reflexivity.
  destruct (consecutive_runs Utf8.codec initial e e w1 w2 cmd1 cmd2 _ _ _ _
              evs1 evs2 _ _ 0 1 H0 H1 H2 H3 H4 H5 H6 G1 G2 G3 G4 G5 G6)
    as (Hw & Hn & _).
  refine (conj H0 (conj H1 (conj H2 (conj H3 (conj H4 (conj H5 (conj H6
           (conj G1 (conj G2 (conj G3 (conj G4 (conj G5 (conj G6
           (conj Hw Hn)))))))))))))).
Defined.

Lemma buildCommand_empty_shows_dialog h w :
  fst (fst (buildCommand h w)) = [] -> snd (buildCommand h w) <> [].
Proof.
  unfold buildCommand.
  destruct (rbCpu w); [|destruct (rbRam w); [|destruct (rbGpu w);
    [|destruct (rbDisk w)]]];
    match goal with |- context [need h ?exe] =>
      destruct (need_cases h exe) as [-> | ->] end; cbn [negb fst snd];
    try (destruct (isEmpty (trimmed (netServer w))); cbn [fst snd app]);
    intros H; try discriminate H; discriminate.
Qed.

(** X21. A refused start leaves nothing behind. When Start is pressed on
    an idle window and either no command is built or the log file cannot be
    opened, the window is idle afterwards and has shown a dialog, and a
    later press of Start that builds a command, opens its log and starts
    its child begins a run with a log that holds just the header of that
    run. *)
Theorem start_after_refused_start (c : Codec) (m0 : MainWindow)
  (e1 e2 : StartEnv) (w1 w2 : Widgets) (cmd1 cmd2 : list QString)
  (exp1 exp2 : option Z) (dlg1 dlg2 : list Dialog) :
  Idle m0 ->
  buildCommand (host e1) w1 = ((cmd1, exp1), dlg1) ->
  cmd1 = [] \/ logOpens e1 (logFileName e1 w1) = false ->
  buildCommand (host e2) w2 = ((cmd2, exp2), dlg2) -> cmd2 <> [] ->
  logOpens e2 (logFileName e2 w2) = true -> spawns e2 cmd2 = true ->
  let m1 := step c m0 (ClickStart e1 w1) in
  let m2 := step c m1 (ClickStart e2 w2) in
  Idle m1
  /\ dialogs (ui m1)
     = dialogs (ui m0) ++ dlg1
       ++ (if isEmpty cmd1 then [] else [loggingError (logFileName e1 w1)])
  /\ dialogs (ui m1) <> dialogs (ui m0)
  /\ RunInv c (logHeader e2 cmd2) [] m2.
Proof.
  intros Hidle Hc1 Hrefused Hc2 Hn2 Ho2 Hs2 m1 m2.
  pose proof Hidle as (Hp & Hl & Hb).
  assert (H1 : Idle m1 /\ dialogs (ui m1)
               = dialogs (ui m0) ++ dlg1
                 ++ (if isEmpty cmd1 then []
                     else [loggingError (logFileName e1 w1)])).
  { subst m1. cbn [step]. rewrite Hb. destruct cmd1 as [|c0 cmd1].
    - rewrite (startClicked_no_command e1 w1 m0 exp1 dlg1 Hp Hc1).
      cbn [isEmpty]. rewrite app_nil_r. split; [exact Hidle | reflexivity].
    - destruct Hrefused as [Hr|Hr]; [discriminate Hr|].
      destruct (startClicked_log_failure e1 w1 m0 (c0 :: cmd1) exp1 dlg1
                  Hidle Hc1 ltac:(discriminate) Hr) as (Hi & _ & Hd).
      split; [exact Hi | exact Hd]. }
  destruct H1 as (Hidle1 & Hd1). split; [exact Hidle1|]. split; [exact Hd1|].
  split.
  - rewrite Hd1. intros E.
    rewrite <- (app_nil_r (dialogs (ui m0))) in E at 2.
    apply app_inv_head in E.
    pose proof (buildCommand_empty_shows_dialog (host e1) w1) as Hdlg.
    rewrite Hc1 in Hdlg. cbn [fst snd] in Hdlg.
    destruct cmd1 as [|c0 cmd1]; cbn [isEmpty] in E.
    + rewrite app_nil_r in E. apply Hdlg; [reflexivity | exact E].
    + destruct dlg1; discriminate E.
  - destruct Hidle1 as (Hp1 & _ & Hb1).
    exact (start_opens_run c e2 w2 m1 cmd2 exp2 dlg2 Hp1 Hb1 Hc2 Hn2 Ho2 Hs2).
Qed.

Lemma start_after_refused_start_witness :
  let e1 := Fixture.env Fixture.hostAll false true in
  let e2 := Fixture.env Fixture.hostAll true true in
  let w := Fixture.defaults in
  let cmd := [qstr "stress-ng"; qstr "--cpu"; qstr "8"; qstr "--timeout";
              qstr "300s"] in
  let m1 := step Utf8.codec initial (ClickStart e1 w) in
  let m2 := step Utf8.codec m1 (ClickStart e2 w) in
  Idle initial
  /\ buildCommand (host e1) w = ((cmd, Some 300), [])
  /\ (cmd = [] \/ logOpens e1 (logFileName e1 w) = false)
  /\ buildCommand (host e2) w = ((cmd, Some 300), []) /\ cmd <> []
  /\ logOpens e2 (logFileName e2 w) = true /\ spawns e2 cmd = true
  /\ dialogs (ui m1) = [loggingError (logFileName e1 w)]
  /\ RunInv Utf8.codec (logHeader e2 cmd) [] m2.
Proof.
  intros e1 e2 w cmd m1 m2.
  assert (H0 : Idle initial) by (repeat split).
  assert (H1 : buildCommand (host e1) w = ((cmd, Some 300), [])) by reflexivity.
  assert (H2 : cmd = [] \/ logOpens e1 (logFileName e1 w) = false)
    by (right; reflexivity).
  assert (H3 : buildCommand (host e2) w = ((cmd, Some 300), [])) by reflexivity.
  assert (H4 : cmd <> []) by discriminate.
  assert (H5 : logOpens e2 (logFileName e2 w) = true) by reflexivity.
  assert (H6 : spawns e2 cmd = true) by reflexivity.
  destruct (start_after_refused_start Utf8.codec initial e1 e2 w w cmd cmd
              _ _ _ _ H0 H1 H2 H3 H4 H5 H6) as (_ & Hd & _ & Hr).
  refine (conj H0 (conj H1 (conj H2 (conj H3 (conj H4 (conj H5 (conj H6
           (conj Hd Hr)))))))).
Defined.

Lemma idle_step_spawning c m ev :
  Idle m -> spawnsAlways ev ->
  Idle (step c m ev) \/ exists hdr, RunInv c hdr [] (step c m ev).
Proof.
  intros Hidle Hspawn.
  destruct (idle_step c m ev Hidle) as [H|[H|Hwedged]]; [auto | auto |].
  exfalso. destruct Hidle as (Hp & Hl & Hb), Hwedged as (Wp & Wl & Wb).
  destruct ev as [e w|wait| |bytes|rc|now].
  - cbn [step] in Wp, Wl. rewrite Hb in Wp, Wl. unfold startClicked in Wp, Wl.
    rewrite (not_running_test _ Hp) in Wp, Wl.
    destruct (buildCommand (host e) w) as [[cmd exp] dlg].
    destruct cmd as [|c0 cmd]; cbn [isEmpty] in Wp, Wl.
    + cbn in Wl. congruence.
    + destruct (logOpens e (logFileName e w)); cbn [negb] in Wp, Wl.
      * cbn in Wp. rewrite (Hspawn (c0 :: cmd)) in Wp. discriminate Wp.
      * cbn in Wl. discriminate Wl.
  - rewrite (proj2 (stop_idle c wait m Hp)) in Wl. congruence.
  - cbn [step] in Wl. destruct (bool_decide (procState m = Starting));
      cbn in Wl; congruence.
  - cbn [step] in Wl.
    destruct (readOutput_frame c bytes m) as (_ & _ & G3 & _). congruence.
  - cbn [step] in Wl. destruct (bool_decide (procState m = NotRunning));
      cbn in Wl; rewrite ?Hl in Wl; cbn in Wl; congruence.
  - cbn [step] in Wl. destruct (timers m) as [|k]; [congruence|].
    destruct (tickProgress_frame now (setTimers k m)) as (_ & _ & G3 & _).
    rewrite G3 in Wl. cbn in Wl. congruence.
Qed.

(** X22. As long as every program that is started comes up, the window is
    never stuck: after any events it is either idle, with the log closed
    and Start enabled, or in a run, with the child alive, the log open on
    the header and output so far, Start disabled and Stop enabled. *)
Theorem never_stuck_when_spawns_succeed (c : Codec) (evs : list Event) :
  Forall spawnsAlways evs ->
  Idle (run c initial evs)
  \/ exists hdr chunks, RunInv c hdr chunks (run c initial evs).
Proof.
  intros Hall.
  assert (G : forall m,
             Idle m \/ (exists hdr chunks, RunInv c hdr chunks m) ->
             Idle (run c m evs)
             \/ exists hdr chunks, RunInv c hdr chunks (run c m evs)).
  { induction Hall as [|ev evs Hev _ IH]; intros m H; [exact H|].
    cbn [run fold_left]. apply IH.
    destruct H as [Hi|(hdr & chunks & Hr)].
    - destruct (idle_step_spawning c m ev Hi Hev) as [H|(hdr & H)]; eauto.
    - destruct (running_step c hdr chunks m ev Hr) as [H|H]; eauto. }
  apply G. left. repeat split.
Qed.

Lemma never_stuck_when_spawns_succeed_witness :
  let e := Fixture.env Fixture.hostAll true true in
  let evs := [ClickStart e Fixture.defaults; ProcStarted;
              ClickStop (fun _ => TimedOut []); ProcFinished 9;
              ClickStart e (Fixture.pick GPU Fixture.defaults)] in
  Forall spawnsAlways evs
  /\ (Idle (run Utf8.codec initial evs)
      \/ exists hdr chunks, RunInv Utf8.codec hdr chunks (run Utf8.codec initial evs)).
Proof.
  intros e evs.
  assert (H : Forall spawnsAlways evs).
  { repeat constructor; intros cmd; reflexivity. }
  exact (conj H (never_stuck_when_spawns_succeed Utf8.codec evs H)).
Defined.
